(** * music21.metadata.bundles: MetadataEntry and MetadataBundle

    A shallow embedding of [music21/metadata/bundles.py].

    - Python [str] values are [string]s; [os.sep] is ["/"] (POSIX).
    - The dictionary [_metadataEntries] is a [gmap string MetadataEntry];
      a Python [set] of keys is a [gset string].  Iteration over a
      dictionary or a set follows [map_to_list] / [elements]; Python leaves
      that order unspecified for sets, so nothing below depends on it unless
      said so.
    - [MetadataEntry] defines no [__eq__], so Python compares entries by
      object identity.  Every entry carries its identity [oid].
    - Exceptions are the [Raise] branch of [result].
    - Time stamps ([os.path.getctime], [time.time]) are integers (ticks);
      the code only compares them with [<].
    - The file system is a finite map from absolute paths to files. *)

From Stdlib Require Import ZArith Ascii.
From Stdlib Require String.
From stdpp Require Import gmap strings list fin_maps fin_sets pretty.

Local Open Scope Z_scope.
Set Warnings "-clear-no-such-hyp".

(** ** Python string primitives used by the module *)

Module Py.

(** [s.startswith(p)] *)
Definition startswith (s p : string) : bool := String.prefix p s.

(** [s.endswith(p)] *)
Definition endswith (s p : string) : bool :=
  String.prefix (String.rev p) (String.rev s).

(** [p in s] for strings: [p] occurs somewhere in [s]. *)
Fixpoint contains (s p : string) : bool :=
  String.prefix p s ||
  match s with
  | EmptyString => false
  | String _ s' => contains s' p
  end.

(** [s[n:]] *)
Fixpoint drop (n : nat) (s : string) : string :=
  match n, s with
  | O, _ => s
  | S n', String _ s' => drop n' s'
  | S _, EmptyString => EmptyString
  end.

(** [s.split(sep)[-1]] for a non-empty separator: Python scans left to
    right for non-overlapping occurrences of [sep]; the last piece is what
    follows the last of them (the whole string when there is none).
    [skip] counts the characters of the occurrence being stepped over and
    [piece] is the last piece so far. *)
Fixpoint split_last_go (sep : string) (skip : nat) (piece s : string) : string :=
  match s with
  | EmptyString => piece
  | String _ s' =>
      match skip with
      | S k => split_last_go sep k piece s'
      | O =>
          if String.prefix sep s
          then split_last_go sep (Nat.pred (String.length sep))
                 (drop (String.length sep) s) s'
          else split_last_go sep O piece s'
      end
  end.

Definition split_last (s sep : string) : string := split_last_go sep O s s.

(** [s.replace(a, b)] for single characters [a], [b]. *)
Fixpoint replace (a b : ascii) (s : string) : string :=
  match s with
  | EmptyString => EmptyString
  | String c s' => String (if Ascii.eqb c a then b else c) (replace a b s')
  end.

(** [x or y] on optional strings: [None] and [''] are falsy. *)
Definition or_ (x y : option string) : option string :=
  match x with
  | Some EmptyString | None => y
  | Some _ => x
  end.

End Py.

(** ** [os.path] on POSIX *)

Module OsPath.

Definition sep : string := "/".

Definition isabs (p : string) : bool := Py.startswith p sep.

(** [os.path.join(a, b)] for two components. *)
Definition join (a b : string) : string :=
  if isabs b then b
  else if (String.eqb a "" || Py.endswith a sep)%bool then a +:+ b
  else a +:+ sep +:+ b.

End OsPath.

(** ** Exceptions and results *)

Inductive exn : Type :=
  | AssertionError
  | KeyError (key : string)
  | MetadataException (msg : string)
  | TypeError
  | OSError (path : string)
  | ThawError (path : string).

Inductive result (A : Type) : Type :=
  | Ok (a : A)
  | Raise (e : exn).
Arguments Ok {A} a.
Arguments Raise {A} e.

#[global] Instance result_ret : MRet result := fun A a => Ok a.

#[global] Instance result_bind : MBind result := fun A B k r =>
  match r with
  | Ok a => k a
  | Raise e => Raise e
  end.

(** ** KeyCodec: [MetadataBundle.corpusPathToKey] *)

Definition corpusPathToKey (filePath : string) (number : option Z) : string :=
  let corpusPath :=
    if (Py.contains filePath "corpus" || Py.contains filePath "music21")%bool
    then Py.split_last filePath "corpus"
    else filePath in
  let corpusPath :=
    if Py.startswith corpusPath OsPath.sep then Py.drop 1 corpusPath
    else corpusPath in
  let corpusPath := Py.replace "/" "_" corpusPath in
  let corpusPath := Py.replace "/" "_" corpusPath in
  let corpusPath := Py.replace "." "_" corpusPath in
  match number with
  | Some n => corpusPath +:+ "_" +:+ pretty n
  | None => corpusPath
  end.

(** ** Data model *)

(** The payload ([RichMetadata], defined elsewhere) is used through one
    capability only: [search(query, field)], whose first component tells
    whether the query matched.  An object is represented by that method. *)
Record Payload : Type := {
  payload_search : string → option string → bool
}.

(** [class MetadataEntry].  [oid] is the identity of the Python object:
    the class has no [__eq__], so [==] on entries is [is]. *)
Record MetadataEntry : Type := {
  oid : positive;
  sourcePath : string;
  number : option Z;
  metadataPayload : option Payload
}.

(** [MetadataEntry.corpusPath] *)
Definition corpusPath (e : MetadataEntry) : string :=
  corpusPathToKey (sourcePath e) (number e).

(** [MetadataEntry.search] *)
Definition entry_search (e : MetadataEntry) (query : string)
    (field : option string) : option bool :=
  p ← metadataPayload e; Some (payload_search p query field).

Abbreviation Entries := (gmap string MetadataEntry).

(** [class MetadataBundle]: [_name] and [_metadataEntries]. *)
Record MetadataBundle : Type := {
  name : option string;
  metadataEntries : Entries
}.

(** [MetadataBundle.__init__(expr)] with a string or [None]. *)
Definition new_bundle (expr : option string) : MetadataBundle :=
  {| name := expr; metadataEntries := ∅ |}.

(** A Python value passed as the operand of an operator or method. *)
Inductive value : Type :=
  | VBundle (b : MetadataBundle)
  | VStr (s : string)
  | VInt (z : Z)
  | VNone.

(** [isinstance(v, MetadataBundle)] *)
Definition isinstance_bundle (v : value) : bool :=
  match v with VBundle _ => true | _ => false end.

(** ** Set algebra *)

(** The attribute names handed to [getattr(selfKeys, operator)]. *)
Inductive set_operator : Type :=
  | op__and__ | op__or__ | op__sub__ | op__xor__
  | op_union | op_intersection | op_difference | op_symmetric_difference.

Definition set_getattr (operator : set_operator) (a b : gset string) : gset string :=
  match operator with
  | op__and__ | op_intersection => a ∩ b
  | op__or__ | op_union => a ∪ b
  | op__sub__ | op_difference => a ∖ b
  | op__xor__ | op_symmetric_difference => (a ∖ b) ∪ (b ∖ a)
  end.

(** The attribute names handed to [getattr(selfKeys, predicate)]. *)
Inductive set_predicate : Type :=
  | p__lt__ | p__le__ | p__gt__ | p__ge__
  | p_isdisjoint | p_issubset | p_issuperset.

Definition pred_getattr (predicate : set_predicate) (a b : gset string) : bool :=
  match predicate with
  | p__lt__ => bool_decide (a ⊂ b)
  | p__le__ | p_issubset => bool_decide (a ⊆ b)
  | p__gt__ => bool_decide (b ⊂ a)
  | p__ge__ | p_issuperset => bool_decide (b ⊆ a)
  | p_isdisjoint => bool_decide (a ## b)
  end.

(** One turn of the loop of [_apply_set_operation]: [d[key]] raises
    [KeyError] when the key is missing. *)
Definition rehydrate (selfE otherE : Entries) (key : string)
    (acc : result Entries) : result Entries :=
  resultEntries ← acc;
  metadataEntry ←
    (if bool_decide (key ∈ dom selfE)
     then from_option Ok (Raise (KeyError key)) (selfE !! key)
     else from_option Ok (Raise (KeyError key)) (otherE !! key));
  Ok (<[key := metadataEntry]> resultEntries).

(** [MetadataBundle._apply_set_operation] *)
Definition _apply_set_operation (self : MetadataBundle) (metadataBundle : value)
    (operator : set_operator) : result MetadataBundle :=
  match metadataBundle with
  | VBundle other =>
      let selfKeys := dom (metadataEntries self) in
      let otherKeys := dom (metadataEntries other) in
      let resultKeys := set_getattr operator selfKeys otherKeys in
      resultEntries ←
        set_fold (rehydrate (metadataEntries self) (metadataEntries other))
          (Ok (metadataEntries (new_bundle None))) resultKeys;
      Ok {| name := name (new_bundle None); metadataEntries := resultEntries |}
  | _ => Raise AssertionError
  end.

(** [MetadataBundle._apply_set_predicate] *)
Definition _apply_set_predicate (self : MetadataBundle) (metadataBundle : value)
    (predicate : set_predicate) : result bool :=
  match metadataBundle with
  | VBundle other =>
      let selfKeys := dom (metadataEntries self) in
      let otherKeys := dom (metadataEntries other) in
      Ok (pred_getattr predicate selfKeys otherKeys)
  | _ => Raise AssertionError
  end.

Definition __and__ self v := _apply_set_operation self v op__and__.
Definition __or__ self v := _apply_set_operation self v op__or__.
Definition __sub__ self v := _apply_set_operation self v op__sub__.
Definition __xor__ self v := _apply_set_operation self v op__xor__.
Definition union self v := _apply_set_operation self v op_union.
Definition intersection self v := _apply_set_operation self v op_intersection.
Definition difference self v := _apply_set_operation self v op_difference.
Definition symmetric_difference self v :=
  _apply_set_operation self v op_symmetric_difference.

Definition __lt__ self v := _apply_set_predicate self v p__lt__.
Definition __le__ self v := _apply_set_predicate self v p__le__.
Definition __gt__ self v := _apply_set_predicate self v p__gt__.
Definition __ge__ self v := _apply_set_predicate self v p__ge__.
Definition isdisjoint self v := _apply_set_predicate self v p_isdisjoint.
Definition issubset self v := _apply_set_predicate self v p_issubset.
Definition issuperset self v := _apply_set_predicate self v p_issuperset.

(** [MetadataBundle.__len__] *)
Definition __len__ (self : MetadataBundle) : Z :=
  Z.of_nat (size (metadataEntries self)).

(** [d1 == d2] on the entry dictionaries: same keys and, at every key, the
    same entry object. *)
Definition dict_eq (d1 d2 : Entries) : bool :=
  bool_decide (oid <$> d1 = oid <$> d2).

(** [MetadataBundle.__eq__] *)
Definition __eq__ (self : MetadataBundle) (other : value) : bool :=
  match other with
  | VBundle o =>
      if dict_eq (metadataEntries self) (metadataEntries o) then true else false
  | _ => false
  end.

(** [MetadataBundle.__ne__]: the body is [return self != expr], and [!=]
    with a bundle on the left dispatches to [MetadataBundle.__ne__] again.
    [depth] is the number of stack frames still available; [None] means
    that they are used up before any frame has returned (the interpreter
    then raises its recursion-depth error). *)
Fixpoint __ne__ (depth : nat) (self : MetadataBundle) (expr : value) : option bool :=
  match depth with
  | O => None
  | S depth' => __ne__ depth' self expr
  end.

(** The same method as a big-step relation: a call returns [r] exactly when
    the call made by its body returns [r]. *)
Inductive ne_returns (self : MetadataBundle) (expr : value) : bool → Prop :=
  | ne_body r : ne_returns self expr r → ne_returns self expr r.

(** ** The environment: file system and external collaborators *)

Record File : Type := {
  ctime : Z;
  data : string
}.

Abbreviation FileSystem := (gmap string File).

(** What the module takes from elsewhere: [os.path.abspath], the directories
    given by [common] and [environLocal], and the codec behind
    [freezeThaw.JSONFreezer] and [freezeThaw.JSONThawer]. *)
Record Env : Type := {
  abspath : string → string;
  getMetadataCacheFilePath : string;
  getRootTempDir : string;
  getCorpusFilePath : string;
  jsonFreeze : Entries → string;
  jsonThaw : string → option Entries
}.

(** [os.path.exists] *)
Definition exists_ (env : Env) (fs : FileSystem) (p : string) : bool :=
  bool_decide (is_Some (fs !! abspath env p)).

(** [os.path.getctime]: raises [OSError] when there is no such file. *)
Definition getctime (env : Env) (fs : FileSystem) (p : string) : result Z :=
  match fs !! abspath env p with
  | Some f => Ok (ctime f)
  | None => Raise (OSError p)
  end.

(** Modelled from the spec: [freezeThaw.JSONFreezer(self).jsonWrite(filePath)]
    is not part of this file; the spec has it "serialize the full entries
    mapping to the resolved location, overwriting any existing file". *)
Definition jsonWrite (env : Env) (now : Z) (self : MetadataBundle)
    (filePath : string) (fs : FileSystem) : FileSystem :=
  <[abspath env filePath :=
      {| ctime := now; data := jsonFreeze env (metadataEntries self) |}]> fs.

(** Modelled from the spec: [freezeThaw.JSONThawer(self).jsonRead(filePath)]
    is not part of this file; the spec has it "deserialize the snapshot into
    entries, replacing any prior content". *)
Definition jsonRead (env : Env) (self : MetadataBundle) (filePath : string)
    (fs : FileSystem) : result MetadataBundle :=
  match fs !! abspath env filePath with
  | None => Raise (OSError filePath)
  | Some f =>
      match jsonThaw env (data f) with
      | None => Raise (ThawError filePath)
      | Some entries => Ok {| name := name self; metadataEntries := entries |}
      end
  end.

(** ** Persistence *)

(** [MetadataBundle.filePath] *)
Definition filePath (env : Env) (self : MetadataBundle) : option string :=
  match name self with
  | None => None
  | Some n =>
      if (String.eqb n "virtual" || String.eqb n "core")%bool
      then Some (OsPath.join (getMetadataCacheFilePath env) (n +:+ ".json"))
      else if String.eqb n "local"
      then Some (OsPath.join (getRootTempDir env) (n +:+ ".json"))
      else Some (OsPath.join (getRootTempDir env) ("local-" +:+ n +:+ ".json"))
  end.

(** [MetadataBundle.write]: the new file system.  The first assignment
    [filePath = filePath or self.filePath] is kept as it is in the source;
    the branch then assigns [self.filePath] over it. *)
Definition write (env : Env) (now : Z) (self : MetadataBundle)
    (filePath_arg : option string) (fs : FileSystem) : FileSystem :=
  let filePath0 := Py.or_ filePath_arg (filePath env self) in
  match filePath env self with
  | Some p =>
      let filePath1 := p in
      jsonWrite env now self filePath1 fs
  | None => fs
  end.

Definition unnamed_msg : string :=
  "Unnamed MetadataBundles have no default file path to read from.".

(** [MetadataBundle.read] *)
Definition read (env : Env) (self : MetadataBundle)
    (filePath_arg : option string) (fs : FileSystem) : result MetadataBundle :=
  let filePath0 :=
    match filePath_arg with
    | None => filePath env self
    | Some p => Some p
    end in
  if (bool_decide (filePath0 = None) && bool_decide (name self = None))%bool
  then Raise (MetadataException unnamed_msg)
  else
    match filePath0 with
    | None => Raise TypeError
    | Some p =>
        if negb (exists_ env fs p) then Ok self
        else jsonRead env self p fs
    end.

(** ** Validator *)

(** One turn of the first loop of [validate]; the state is
    [(invalidatedKeys, validatedPaths)]. *)
Definition validate_step (env : Env) (fs : FileSystem) (key : string)
    (metadataEntry : MetadataEntry) (st : list string * gset string)
    : list string * gset string :=
  let '(invalidatedKeys, validatedPaths) := st in
  let sourcePath0 := sourcePath metadataEntry in
  if bool_decide (sourcePath0 ∈ validatedPaths) then st
  else if Py.startswith sourcePath0 "http:"
  then (invalidatedKeys, validatedPaths ∪ {[sourcePath metadataEntry]})
  else
    let sourcePath1 :=
      if negb (OsPath.isabs sourcePath0)
      then abspath env (OsPath.join (getCorpusFilePath env) sourcePath0)
      else sourcePath0 in
    let invalidatedKeys' :=
      if negb (exists_ env fs sourcePath1)
      then invalidatedKeys ++ [key] else invalidatedKeys in
    (invalidatedKeys', validatedPaths ∪ {[sourcePath metadataEntry]}).

(** The first loop of [validate] over the items in iteration order. *)
Definition validate_loop (env : Env) (fs : FileSystem)
    (items : list (string * MetadataEntry)) : list string * gset string :=
  foldl (fun st kv => validate_step env fs kv.1 kv.2 st) ([], ∅) items.

(** [MetadataBundle.validate]: the bundle afterwards and the returned count.
    Every invalidated key is a key of the dictionary, met once, so the
    [del] of the second loop finds it. *)
Definition validate (env : Env) (fs : FileSystem) (self : MetadataBundle)
    : MetadataBundle * Z :=
  let invalidatedKeys :=
    (validate_loop env fs (map_to_list (metadataEntries self))).1 in
  ({| name := name self;
      metadataEntries :=
        foldl (fun m key => delete key m) (metadataEntries self) invalidatedKeys |},
   Z.of_nat (length invalidatedKeys)).

(** ** Incremental rebuild: the scheduling phase of [addFromPaths] *)

(** [metadata.MetadataCachingJob(path, jobNumber=..., useCorpus=...)] *)
Record MetadataCachingJob : Type := {
  job_filePath : string;
  jobNumber : Z;
  job_useCorpus : bool
}.

(** The reference time taken before the loop; [now] is [time.time()]. *)
Definition metadataBundleModificationTime (env : Env) (fs : FileSystem)
    (now : Z) (self : MetadataBundle) : result Z :=
  match filePath env self with
  | Some p => if exists_ env fs p then getctime env fs p else Ok now
  | None => Ok now
  end.

(** The state of the loop over [paths]. *)
Record sched : Type := {
  jobs : list MetadataCachingJob;
  currentJobNumber : Z;
  skippedJobsCount : Z
}.

(** One turn of the loop [for path in paths]. *)
Definition schedule_step (env : Env) (fs : FileSystem) (self : MetadataBundle)
    (useCorpus : bool) (mtime : Z) (st : sched) (path : string) : result sched :=
  let path1 := if negb (Py.startswith path "http") then abspath env path else path in
  let key := corpusPathToKey path1 None in
  let schedule :=
    let n := currentJobNumber st + 1 in
    Ok {| jobs := jobs st ++
                  [{| job_filePath := path1; jobNumber := n;
                      job_useCorpus := useCorpus |}];
          currentJobNumber := n;
          skippedJobsCount := skippedJobsCount st |} in
  if (bool_decide (key ∈ dom (metadataEntries self)) && negb (Py.startswith key "http"))%bool
  then
    pathModificationTime ← getctime env fs path1;
    if pathModificationTime <? mtime
    then Ok {| jobs := jobs st;
               currentJobNumber := currentJobNumber st;
               skippedJobsCount := skippedJobsCount st + 1 |}
    else schedule
  else schedule.

Fixpoint schedule_loop (env : Env) (fs : FileSystem) (self : MetadataBundle)
    (useCorpus : bool) (mtime : Z) (st : sched) (paths : list string) : result sched :=
  match paths with
  | [] => Ok st
  | path :: rest =>
      st' ← schedule_step env fs self useCorpus mtime st path;
      schedule_loop env fs self useCorpus mtime st' rest
  end.

(** [addFromPaths] up to the point where the job list is handed to the
    job processor. *)
Definition addFromPaths_jobs (env : Env) (fs : FileSystem) (now : Z)
    (self : MetadataBundle) (paths : list string) (useCorpus : bool)
    : result (list MetadataCachingJob) :=
  mtime ← metadataBundleModificationTime env fs now self;
  st ← schedule_loop env fs self useCorpus mtime
         {| jobs := []; currentJobNumber := 0; skippedJobsCount := 0 |} paths;
  Ok (jobs st).

(** ** Search *)

(** The loop over [fileExtensions] that sets [include]. *)
Fixpoint include_loop (sourcePath0 : string) (fileExtensions : list string) : bool :=
  match fileExtensions with
  | [] => false
  | fileExtension :: rest =>
      if Py.endswith sourcePath0 fileExtension then true
      else if (Py.endswith fileExtension "xml"
               && (Py.endswith sourcePath0 "mxl" || Py.endswith sourcePath0 "mx"))%bool
      then true
      else include_loop sourcePath0 rest
  end.

Definition include (sourcePath0 : string) (fileExtensions : option (list string)) : bool :=
  match fileExtensions with
  | Some exts => include_loop sourcePath0 exts
  | None => true
  end.

(** One turn of the loop of [search] over the keys of [self]. *)
Definition search_step (query : string) (field : option string)
    (fileExtensions : option (list string)) (key : string)
    (metadataEntry : MetadataEntry) (newEntries : Entries) : Entries :=
  match metadataPayload metadataEntry with
  | None => newEntries
  | Some payload =>
      if payload_search payload query field
      then
        if (include (sourcePath metadataEntry) fileExtensions
            && negb (bool_decide (key ∈ dom newEntries)))%bool
        then <[key := metadataEntry]> newEntries
        else newEntries
      else newEntries
  end.

(** [MetadataBundle.search] *)
Definition search (self : MetadataBundle) (query : string)
    (field : option string) (fileExtensions : option (list string))
    : MetadataBundle :=
  {| name := name (new_bundle None);
     metadataEntries :=
       map_fold (search_step query field fileExtensions)
         (metadataEntries (new_bundle None)) (metadataEntries self) |}.

(** ** Public methods by name *)

Definition set_method (operator : set_operator)
    : MetadataBundle → value → result MetadataBundle :=
  match operator with
  | op__and__ => __and__
  | op__or__ => __or__
  | op__sub__ => __sub__
  | op__xor__ => __xor__
  | op_union => union
  | op_intersection => intersection
  | op_difference => difference
  | op_symmetric_difference => symmetric_difference
  end.

Definition predicate_method (predicate : set_predicate)
    : MetadataBundle → value → result bool :=
  match predicate with
  | p__lt__ => __lt__
  | p__le__ => __le__
  | p__gt__ => __gt__
  | p__ge__ => __ge__
  | p_isdisjoint => isdisjoint
  | p_issubset => issubset
  | p_issuperset => issuperset
  end.

(** ** Reference semantics used in the statements *)

(** Membership in the result of the set operation each name stands for, in
    terms of membership in the two operands. *)
Definition member_after (operator : set_operator) (inSelf inOther : Prop) : Prop :=
  match operator with
  | op__and__ | op_intersection => inSelf ∧ inOther
  | op__or__ | op_union => inSelf ∨ inOther
  | op__sub__ | op_difference => inSelf ∧ ¬ inOther
  | op__xor__ | op_symmetric_difference =>
      (inSelf ∧ ¬ inOther) ∨ (inOther ∧ ¬ inSelf)
  end.

(** Two bundles hold the same entry object at every key they share. *)
Definition agree_on_shared (A B : MetadataBundle) : Prop :=
  ∀ k e1 e2,
    metadataEntries A !! k = Some e1 →
    metadataEntries B !! k = Some e2 →
    oid e1 = oid e2.

(** The extension of a path: the suffix from the last ['.'] of its last
    component, empty when that component has no ['.']. *)
Fixpoint extension_go (s ext : string) : string :=
  match s with
  | EmptyString => ext
  | String c s' =>
      if Ascii.eqb c "/" then extension_go s' EmptyString
      else if Ascii.eqb c "." then extension_go s' s
      else extension_go s' ext
  end.

Definition extension (p : string) : string := extension_go p EmptyString.

(** The extension filter in the words of the specification: no filter, or
    the extension of the source path is a member of the filter, or the
    filter has an xml-family member and the source path has a container
    extension. *)
Definition filter_as_worded (sourcePath0 : string)
    (fileExtensions : option (list string)) : bool :=
  match fileExtensions with
  | None => true
  | Some exts =>
      bool_decide (extension sourcePath0 ∈ exts)
      || (existsb (fun e => Py.endswith e "xml") exts
          && (Py.endswith sourcePath0 "mxl" || Py.endswith sourcePath0 "mx"))
  end.

(** The extension filter as the code computes it. *)
Definition filter_as_coded (sourcePath0 : string)
    (fileExtensions : option (list string)) : Prop :=
  match fileExtensions with
  | None => True
  | Some exts =>
      ∃ e, e ∈ exts ∧
        (Py.endswith sourcePath0 e = true
         ∨ (Py.endswith e "xml" = true
            ∧ (Py.endswith sourcePath0 "mxl" = true
               ∨ Py.endswith sourcePath0 "mx" = true)))
  end.

(** A job for [path] is in the job list. *)
Definition scheduled (path : string) (js : list MetadataCachingJob) : Prop :=
  ∃ j, j ∈ js ∧ job_filePath j = path.

(** The path [read] works on after [if filePath is None: filePath =
    self.filePath]. *)
Definition resolved_path (env : Env) (self : MetadataBundle)
    (filePath_arg : option string) : option string :=
  match filePath_arg with
  | None => filePath env self
  | Some p => Some p
  end.

(** The path a job is created for: [path] after the first statement of the
    loop body of [addFromPaths]. *)
Definition normalized (env : Env) (path : string) : string :=
  if negb (Py.startswith path "http") then abspath env path else path.

(** The guard of the staleness test for an input path. *)
Definition consults_ctime (env : Env) (self : MetadataBundle) (path : string) : bool :=
  let key := corpusPathToKey (normalized env path) None in
  bool_decide (key ∈ dom (metadataEntries self)) && negb (Py.startswith key "http").

(** The loop of [addFromPaths] skips the (normalized) path [path1]: its
    key is cached, is not network-addressed, and the source is older than
    the reference time. *)
Definition cache_hit (env : Env) (fs : FileSystem) (self : MetadataBundle)
    (mtime : Z) (path1 : string) : bool :=
  let key := corpusPathToKey path1 None in
  bool_decide (key ∈ dom (metadataEntries self))
  && negb (Py.startswith key "http")
  && match getctime env fs path1 with
     | Ok t => t <? mtime
     | Raise _ => false
     end.

(** An entry is a search hit: it has a payload, the payload reports a match,
    and the source path passes the extension loop. *)
Definition search_keeps (query : string) (field : option string)
    (fileExtensions : option (list string)) (e : MetadataEntry) : bool :=
  match metadataPayload e with
  | None => false
  | Some p => payload_search p query field && include (sourcePath e) fileExtensions
  end.

(** ** In-memory and on-disk clearing *)

(** [MetadataBundle.clear] *)
Definition clear (self : MetadataBundle) : MetadataBundle :=
  {| name := name self; metadataEntries := ∅ |}.

(** [os.remove] of an existing file. *)
Definition remove (env : Env) (fs : FileSystem) (p : string) : FileSystem :=
  delete (abspath env p) fs.

(** [MetadataBundle.delete]: the new file system (the method is named
    [delete] in the source; the bundle itself is returned untouched). *)
Definition delete_ (env : Env) (self : MetadataBundle) (fs : FileSystem)
    : FileSystem :=
  match filePath env self with
  | Some p => if exists_ env fs p then remove env fs p else fs
  | None => fs
  end.

(** ** Incremental rebuild: merging the job results *)

(** What [metadata.JobProcessor] yields for a completed job. *)
Record JobResult : Type := {
  result_metadataEntries : list MetadataEntry;
  result_errors : list string;
  result_filePath : string;
  result_remainingJobs : Z
}.

(** [metadata.JobProcessor]: its two strategies, taken as given. *)
Record JobProcessor : Type := {
  process_parallel : list MetadataCachingJob → list JobResult;
  process_serial : list MetadataCachingJob → list JobResult
}.

(** The state of the loop [for result in jobProcessor(jobs)]: the bundle,
    the disk and the local variables. *)
Record merge : Type := {
  currentIteration : Z;
  accumulatedResults : list MetadataEntry;
  accumulatedErrors : list string;
  merged : MetadataBundle;
  disk : FileSystem
}.

(** [for metadataEntry in result['metadataEntries']:
       self._metadataEntries[metadataEntry.corpusPath] = metadataEntry] *)
Definition store_entries (entries : Entries) (es : list MetadataEntry) : Entries :=
  foldl (fun m e => <[corpusPath e := e]> m) entries es.

(** One turn of the loop over the job results. *)
Definition merge_step (env : Env) (now : Z) (st : merge) (r : JobResult) : merge :=
  let currentIteration' := currentIteration st + 1 in
  let self' :=
    {| name := name (merged st);
       metadataEntries :=
         store_entries (metadataEntries (merged st)) (result_metadataEntries r) |} in
  {| currentIteration := currentIteration';
     accumulatedResults := accumulatedResults st ++ result_metadataEntries r;
     accumulatedErrors := accumulatedErrors st ++ result_errors r;
     merged := self';
     disk := if currentIteration' mod 50 =? 0
             then write env now self' None (disk st)
             else disk st |}.

(** [MetadataBundle.addFromPaths]: the returned error list, the bundle and
    the disk afterwards.  [now] is the clock reading of the call. *)
Definition addFromPaths (env : Env) (jp : JobProcessor) (fs : FileSystem)
    (now : Z) (self : MetadataBundle) (paths : list string)
    (useCorpus useMultiprocessing : bool)
    : result (list string * MetadataBundle * FileSystem) :=
  js ← addFromPaths_jobs env fs now self paths useCorpus;
  let jobProcessor :=
    if useMultiprocessing then process_parallel jp else process_serial jp in
  let st :=
    foldl (merge_step env now)
      {| currentIteration := 0; accumulatedResults := [];
         accumulatedErrors := []; merged := self; disk := fs |}
      (jobProcessor js) in
  let self1 := (validate env (disk st) (merged st)).1 in
  let fs1 := write env now self1 None (disk st) in
  Ok (accumulatedErrors st, self1, fs1).



(** ** The per-corpus cache of bundles *)

(** [corpora.Corpus._metadataBundles]: corpus name to bundle or [None]. *)
Abbreviation BundleCache := (gmap string (option MetadataBundle)).

(** [bool(bundle)]: the class has [__len__] and no [__bool__], so a bundle
    is true when it is not empty. *)
Definition truth (self : MetadataBundle) : bool := negb (__len__ self =? 0).

(** [bundle = cls(corpusName).read();
     corpora.Corpus._metadataBundles[corpusName] = bundle; return bundle] *)
Definition read_and_cache (env : Env) (fs : FileSystem) (cache : BundleCache)
    (corpusName : string) : result (MetadataBundle * BundleCache) :=
  bundle ← read env (new_bundle (Some corpusName)) None fs;
  Ok (bundle, <[corpusName := Some bundle]> cache).

(** [MetadataBundle.fromCoreCorpus]: the cached bundle is returned when the
    cache has the name and the cached value is true. *)
Definition fromCoreCorpus (env : Env) (fs : FileSystem) (cache : BundleCache)
    : result (MetadataBundle * BundleCache) :=
  let corpusName := "core" in
  match cache !! corpusName with
  | Some (Some b) =>
      if truth b then Ok (b, cache) else read_and_cache env fs cache corpusName
  | _ => read_and_cache env fs cache corpusName
  end.

(** [MetadataBundle.fromVirtualCorpus] *)
Definition fromVirtualCorpus (env : Env) (fs : FileSystem) (cache : BundleCache)
    : result (MetadataBundle * BundleCache) :=
  let corpusName := "virtual" in
  match cache !! corpusName with
  | Some (Some b) =>
      if truth b then Ok (b, cache) else read_and_cache env fs cache corpusName
  | _ => read_and_cache env fs cache corpusName
  end.

(** [MetadataBundle.fromLocalCorpus]: here the test is [is not None]. *)
Definition fromLocalCorpus (env : Env) (fs : FileSystem) (cache : BundleCache)
    (name_arg : option string) : result (MetadataBundle * BundleCache) :=
  let corpusName :=
    match name_arg with
    | None => "local"
    | Some n => if String.eqb n "local" then "local" else "local-" +:+ n
    end in
  match cache !! corpusName with
  | Some (Some b) => Ok (b, cache)
  | _ => read_and_cache env fs cache corpusName
  end.

(** ** Further notions used in the statements *)


(** Every key of the dictionary is the canonical key of its own entry. *)
Definition canonical (entries : Entries) : Prop :=
  ∀ k e, entries !! k = Some e → k = corpusPath e.

(** The character [c] occurs in [s]. *)
Fixpoint occurs (c : ascii) (s : string) : bool :=
  match s with
  | EmptyString => false
  | String x s' => Ascii.eqb x c || occurs c s'
  end.

(** The path [validate] tests for existence. *)
Definition located (env : Env) (sourcePath0 : string) : string :=
  if negb (OsPath.isabs sourcePath0)
  then abspath env (OsPath.join (getCorpusFilePath env) sourcePath0)
  else sourcePath0.

(** An entry [validate] has to drop: not an "http:" source, and nothing at
    the located path. *)
Definition orphan (env : Env) (fs : FileSystem) (e : MetadataEntry) : bool :=
  negb (Py.startswith (sourcePath e) "http:")
  && negb (exists_ env fs (located env (sourcePath e))).

(** No two entries of the dictionary have the same source path. *)
Definition distinct_sources (entries : Entries) : Prop :=
  ∀ k1 k2 e1 e2,
    entries !! k1 = Some e1 → entries !! k2 = Some e2 →
    sourcePath e1 = sourcePath e2 → k1 = k2.

(** ** Sample data *)

Module Sample.

Definition env : Env := {|
  abspath := fun p => if OsPath.isabs p then p else "/home/user/" +:+ p;
  getMetadataCacheFilePath := "/var/cache/music21";
  getRootTempDir := "/tmp/music21";
  getCorpusFilePath := "/usr/lib/music21/corpus";
  jsonFreeze := fun es =>
    "{" +:+ foldr (fun kv acc => kv.1 +:+ ";" +:+ acc) "" (map_to_list es) +:+ "}";
  jsonThaw := fun s => if String.eqb s "{}" then Some ∅ else None
|}.

(** A payload whose composer field contains "bach". *)
Definition bach : Payload := {|
  payload_search := fun query field =>
    (String.eqb query "bach"
     && match field with
        | None => true
        | Some f => String.eqb f "composer"
        end)%bool
|}.

Definition entry (o : positive) (path : string) (n : option Z) : MetadataEntry :=
  {| oid := o; sourcePath := path; number := n; metadataPayload := Some bach |}.

Definition bundle_of (nm : option string) (es : list MetadataEntry) : MetadataBundle :=
  {| name := nm;
     metadataEntries := list_to_map ((fun e => (corpusPath e, e)) <$> es) |}.

Definition mxl := entry 1 "/usr/lib/music21/corpus/bach/bwv66.6.mxl" None.
Definition krn := entry 2 "/usr/lib/music21/corpus/essen/han1.krn" None.
Definition xml := entry 3 "/usr/lib/music21/corpus/bach/bwv1.6.xml" None.
Definition mxl_again := entry 4 "/usr/lib/music21/corpus/bach/bwv66.6.mxl" None.
Definition opus1 := entry 5 "/scores/opus.abc" (Some 1).
Definition opus2 := entry 6 "/scores/opus.abc" (Some 2).

Definition file (t : Z) : File := {| ctime := t; data := "{}" |}.

Definition mxl_path : string := "/usr/lib/music21/corpus/bach/bwv66.6.mxl".
Definition core_json : string := "/var/cache/music21/core.json".

(** A snapshot of the core bundle changed at time 100 and a source file
    changed at time [t]. *)
Definition disk (t : Z) : FileSystem :=
  <[core_json := file 100]> (<[mxl_path := file t]> ∅).

Definition core : MetadataBundle := bundle_of (Some "core") [mxl].

End Sample.

(** * Properties *)

(** ** The key codec on the documented inputs *)

Example corpusPathToKey_doc1 :
  corpusPathToKey "bach/bwv1007/prelude" None = "bach_bwv1007_prelude".
Proof. reflexivity. Qed.

Example corpusPathToKey_doc2 :
  corpusPathToKey "/beethoven/opus59no1/movement1.xml" None
  = "beethoven_opus59no1_movement1_xml".
Proof. reflexivity. Qed.

Example corpusPathToKey_numbered :
  corpusPathToKey "/usr/lib/music21/corpus/bach/bwv66.6.mxl" (Some 2)
  = "bach_bwv66_6_mxl_2".
Proof. vm_compute. reflexivity. Qed.

(** ** Set algebra *)

Section SetAlgebra.

Implicit Types (self other A B : MetadataBundle) (k : string).
Implicit Types (selfE otherE : Entries).

(** The entry the rehydration loop picks for a key. *)
Lemma lookup_prefer_self selfE otherE k :
  (selfE ∪ otherE) !! k
  = match selfE !! k with Some e => Some e | None => otherE !! k end.
Proof.
  rewrite lookup_union. destruct (selfE !! k), (otherE !! k); reflexivity.
Qed.

Lemma set_getattr_subseteq operator (a b : gset string) :
  set_getattr operator a b ⊆ a ∪ b.
Proof. destruct operator; set_solver. Qed.

Lemma elem_of_set_getattr operator (a b : gset string) k :
  k ∈ set_getattr operator a b ↔ member_after operator (k ∈ a) (k ∈ b).
Proof.
  destruct operator; simpl;
    rewrite ?elem_of_union, ?elem_of_intersection, ?elem_of_difference; tauto.
Qed.

(** The loop never meets a missing key, and builds the restriction of
    the self-preferring merge to the result keys. *)
Lemma set_fold_rehydrate selfE otherE (X : gset string) :
  X ⊆ dom selfE ∪ dom otherE →
  ∃ m : Entries,
    set_fold (rehydrate selfE otherE) (Ok ∅) X = Ok m
    ∧ ∀ k, m !! k = if bool_decide (k ∈ X) then (selfE ∪ otherE) !! k else None.
Proof.
  revert X.
  apply (set_fold_ind_L
    (fun r (X : gset string) =>
       X ⊆ dom selfE ∪ dom otherE →
       ∃ m : Entries, r = Ok m
         ∧ ∀ k, m !! k = if bool_decide (k ∈ X) then (selfE ∪ otherE) !! k else None)).
  - intros _. exists ∅. split; [reflexivity|]. intros k.
    rewrite lookup_empty, bool_decide_eq_false_2; [reflexivity | set_solver].
  - intros x Y r Hx IH Hsub.
    destruct IH as (m & -> & Hm); [set_solver|].
    assert (Hin : x ∈ dom selfE ∪ dom otherE) by set_solver.
    assert (Hpick : ∃ e, (selfE ∪ otherE) !! x = Some e
        ∧ rehydrate selfE otherE x (Ok m) = Ok (<[x := e]> m)).
    { unfold rehydrate. simpl. rewrite lookup_prefer_self.
      destruct (decide (x ∈ dom selfE)) as [Hs | Hs].
      - rewrite bool_decide_eq_true_2 by done.
        apply elem_of_dom in Hs as [e He]. rewrite He. eauto.
      - rewrite bool_decide_eq_false_2 by done.
        assert (x ∈ dom otherE) as [e He]%elem_of_dom by set_solver.
        apply not_elem_of_dom in Hs. rewrite Hs, He. eauto. }
    destruct Hpick as (e & He & ->). eexists; split; [reflexivity|].
    intros k. destruct (decide (k = x)) as [-> | Hne].
    + rewrite lookup_insert_eq, bool_decide_eq_true_2 by set_solver. done.
    + rewrite lookup_insert_ne, Hm by done.
      destruct (decide (k ∈ Y)).
      * rewrite !bool_decide_eq_true_2 by set_solver. done.
      * rewrite !bool_decide_eq_false_2 by set_solver. done.
Qed.

(** What [_apply_set_operation] returns on two bundles. *)
Lemma apply_set_operation_Ok self other operator :
  ∃ r,
    _apply_set_operation self (VBundle other) operator = Ok r
    ∧ name r = None
    ∧ ∀ k, metadataEntries r !! k
           = if bool_decide (k ∈ set_getattr operator
                                   (dom (metadataEntries self))
                                   (dom (metadataEntries other)))
             then (metadataEntries self ∪ metadataEntries other) !! k
             else None.
Proof.
  unfold _apply_set_operation; simpl.
  destruct (set_fold_rehydrate (metadataEntries self) (metadataEntries other)
              (set_getattr operator (dom (metadataEntries self))
                 (dom (metadataEntries other))))
    as (m & -> & Hm); [apply set_getattr_subseteq|].
  simpl. eexists; split; [reflexivity|]. split; [reflexivity|]. exact Hm.
Qed.

Lemma apply_set_operation_dom self other operator r :
  _apply_set_operation self (VBundle other) operator = Ok r →
  dom (metadataEntries r)
  = set_getattr operator (dom (metadataEntries self)) (dom (metadataEntries other)).
Proof.
  intros Hr. destruct (apply_set_operation_Ok self other operator)
    as (r' & Hr' & _ & Hm).
  rewrite Hr in Hr'. injection Hr' as <-.
  apply set_eq. intros k. rewrite elem_of_dom, Hm.
  pose proof (set_getattr_subseteq operator (dom (metadataEntries self))
                (dom (metadataEntries other))) as Hsub.
  destruct (decide (k ∈ set_getattr operator (dom (metadataEntries self))
                          (dom (metadataEntries other)))) as [Hk | Hk].
  - rewrite bool_decide_eq_true_2 by done. split; [done|]. intros _.
    apply elem_of_dom. rewrite dom_union_L. set_solver.
  - rewrite bool_decide_eq_false_2 by done. split; [|done].
    intros [? ?]; done.
Qed.

End SetAlgebra.

Lemma set_method_dispatch operator self v :
  set_method operator self v = _apply_set_operation self v operator.
Proof. destruct operator; reflexivity. Qed.

Lemma predicate_method_dispatch predicate self v :
  predicate_method predicate self v = _apply_set_predicate self v predicate.
Proof. destruct predicate; reflexivity. Qed.

(** C8: every set-algebra method, named or operator form, applied to two
    bundles returns a bundle whose name is [None], whose keys are those of
    the native set operation on the operands' key sets, and whose entry at
    each key is the one of [self] when [self] has the key and the one of
    the other operand otherwise. *)
Theorem set_operation_rehydrates (operator : set_operator)
    (self other : MetadataBundle) :
  ∃ r,
    set_method operator self (VBundle other) = Ok r
    ∧ name r = None
    ∧ (∀ k, k ∈ dom (metadataEntries r)
            ↔ member_after operator (k ∈ dom (metadataEntries self))
                                    (k ∈ dom (metadataEntries other)))
    ∧ (∀ k, metadataEntries r !! k
            = if bool_decide (k ∈ dom (metadataEntries r))
              then match metadataEntries self !! k with
                   | Some e => Some e
                   | None => metadataEntries other !! k
                   end
              else None).
Proof.
  rewrite set_method_dispatch.
  destruct (apply_set_operation_Ok self other operator) as (r & Hr & Hname & Hm).
  exists r. split; [exact Hr|]. split; [exact Hname|]. split.
  - intros k. rewrite (apply_set_operation_dom _ _ _ _ Hr).
    apply elem_of_set_getattr.
  - intros k. rewrite (apply_set_operation_dom _ _ _ _ Hr), Hm.
    destruct (bool_decide _); [apply lookup_prefer_self | reflexivity].
Qed.

(** C7: with an operand that is not a bundle, every set-algebra method and
    every set predicate raises the assertion failure, while [==] returns
    [False]. *)
Theorem non_bundle_operand (self : MetadataBundle) (v : value) :
  isinstance_bundle v = false →
  (∀ operator, set_method operator self v = Raise AssertionError)
  ∧ (∀ predicate, predicate_method predicate self v = Raise AssertionError)
  ∧ __eq__ self v = false.
Proof.
  intros Hv. destruct v as [b | s | z | ]; [discriminate Hv | ..];
    (split; [intros operator; rewrite set_method_dispatch; reflexivity|]);
    (split; [intros predicate; rewrite predicate_method_dispatch; reflexivity|]);
    reflexivity.
Qed.

Lemma non_bundle_operand_witness :
  isinstance_bundle (VStr "foo") = false
  ∧ (∀ operator,
       set_method operator (Sample.bundle_of None [Sample.mxl]) (VStr "foo")
       = Raise AssertionError)
  ∧ (∀ predicate,
       predicate_method predicate (Sample.bundle_of None [Sample.mxl]) (VStr "foo")
       = Raise AssertionError)
  ∧ __eq__ (Sample.bundle_of None [Sample.mxl]) (VStr "foo") = false.
Proof.
  split; [reflexivity|].
  apply (non_bundle_operand (Sample.bundle_of None [Sample.mxl]) (VStr "foo")).
  reflexivity.
Defined.

(** ** Comparisons *)

Lemma not_subseteq_witness (a b : gset string) :
  ¬ b ⊆ a → ∃ k, k ∈ b ∧ k ∉ a.
Proof.
  intros Hn. destruct (decide (b ∖ a = ∅)) as [He | Hne].
  - exfalso. apply Hn. intros k Hk. destruct (decide (k ∈ a)); [done|].
    assert (k ∈ b ∖ a) as Hd by set_solver. rewrite He in Hd. set_solver.
  - apply set_choose_L in Hne as [k Hk]. exists k. set_solver.
Qed.

Lemma strict_subset_iff (a b : gset string) :
  a ⊂ b ↔ (∀ k, k ∈ a → k ∈ b) ∧ ∃ k, k ∈ b ∧ k ∉ a.
Proof.
  split.
  - intros [Hs Hn]. split; [exact Hs|]. by apply not_subseteq_witness.
  - intros [Hs (k & Hb & Ha)]. split; [exact Hs|]. intros Hba. apply Ha, Hba, Hb.
Qed.

Lemma dict_eq_dom (d1 d2 : Entries) : dict_eq d1 d2 = true → dom d1 = dom d2.
Proof.
  unfold dict_eq. intros H%bool_decide_eq_true.
  rewrite <- (dom_fmap_L oid d1), <- (dom_fmap_L oid d2), H. reflexivity.
Qed.

(** C9: [<], [<=], [>], [>=] on two bundles return the proper-subset,
    subset, proper-superset and superset tests on their key sets; two
    bundles with disjoint non-empty key sets are neither [<], nor [>], nor
    [==]. *)
Theorem comparisons_follow_key_sets (A B : MetadataBundle) :
  let a := dom (metadataEntries A) in
  let b := dom (metadataEntries B) in
  ∃ lt le gt ge : bool,
    __lt__ A (VBundle B) = Ok lt
    ∧ __le__ A (VBundle B) = Ok le
    ∧ __gt__ A (VBundle B) = Ok gt
    ∧ __ge__ A (VBundle B) = Ok ge
    ∧ (lt = true ↔ (∀ k, k ∈ a → k ∈ b) ∧ ∃ k, k ∈ b ∧ k ∉ a)
    ∧ (le = true ↔ ∀ k, k ∈ a → k ∈ b)
    ∧ (gt = true ↔ (∀ k, k ∈ b → k ∈ a) ∧ ∃ k, k ∈ a ∧ k ∉ b)
    ∧ (ge = true ↔ ∀ k, k ∈ b → k ∈ a)
    ∧ ((∀ k, k ∈ a → k ∉ b) → (∃ k, k ∈ a) → (∃ k, k ∈ b) →
       lt = false ∧ gt = false ∧ __eq__ A (VBundle B) = false).
Proof.
  intros a b.
  exists (bool_decide (a ⊂ b)), (bool_decide (a ⊆ b)),
         (bool_decide (b ⊂ a)), (bool_decide (b ⊆ a)).
  repeat (split; [reflexivity|]).
  split; [rewrite bool_decide_eq_true; apply strict_subset_iff|].
  split; [rewrite bool_decide_eq_true; reflexivity|].
  split; [rewrite bool_decide_eq_true; apply strict_subset_iff|].
  split; [rewrite bool_decide_eq_true; reflexivity|].
  intros Hdisj [ka Hka] [kb Hkb]. split; [|split].
  - apply bool_decide_eq_false. intros [Hs _]. apply (Hdisj ka Hka), Hs, Hka.
  - apply bool_decide_eq_false. intros [Hs _]. apply (Hdisj kb); [apply Hs|]; exact Hkb.
  - unfold __eq__. destruct (dict_eq _ _) eqn:He; [|reflexivity].
    exfalso. apply dict_eq_dom in He. fold a b in He.
    apply (Hdisj ka Hka). rewrite <- He. exact Hka.
Qed.

(** C10: a call of [__ne__] on a bundle never returns: whatever stack depth
    is available it is used up, and no finite evaluation yields a value. *)
Theorem ne_never_returns (self : MetadataBundle) (expr : value) :
  (∀ depth, __ne__ depth self expr = None)
  ∧ (∀ r, ¬ ne_returns self expr r).
Proof.
  split.
  - intros depth. induction depth as [| depth IH]; [reflexivity | exact IH].
  - intros r H. induction H as [r _ IH]. exact IH.
Qed.

Lemma comparisons_follow_key_sets_witness :
  let A := Sample.bundle_of None [Sample.mxl; Sample.xml] in
  let B := Sample.bundle_of None [Sample.krn] in
  (∀ k, k ∈ dom (metadataEntries A) → k ∉ dom (metadataEntries B))
  ∧ (∃ k, k ∈ dom (metadataEntries A))
  ∧ (∃ k, k ∈ dom (metadataEntries B))
  ∧ __lt__ A (VBundle B) = Ok false
  ∧ __gt__ A (VBundle B) = Ok false
  ∧ __eq__ A (VBundle B) = false.
Proof.
  intros A B.
  assert (Hd : ∀ k, k ∈ dom (metadataEntries A) → k ∉ dom (metadataEntries B)).
  { intros k Ha Hb. revert k Ha Hb. apply elem_of_disjoint.
    apply (bool_decide_unpack _). vm_compute. exact I. }
  assert (Ha : ∃ k, k ∈ dom (metadataEntries A)).
  { exists "bach_bwv66_6_mxl". apply (bool_decide_unpack _). vm_compute. exact I. }
  assert (Hb : ∃ k, k ∈ dom (metadataEntries B)).
  { exists "essen_han1_krn". apply (bool_decide_unpack _). vm_compute. exact I. }
  split; [exact Hd|]. split; [exact Ha|]. split; [exact Hb|].
  destruct (comparisons_follow_key_sets A B)
    as (lt & le & gt & ge & Hlt & _ & Hgt & _ & _ & _ & _ & _ & Hnone).
  destruct (Hnone Hd Ha Hb) as (-> & -> & Heq).
  split; [exact Hlt|]. split; [exact Hgt|]. exact Heq.
Defined.

(** ** Laws of union and intersection *)

Lemma union_entries A B r :
  union A (VBundle B) = Ok r →
  metadataEntries r = metadataEntries A ∪ metadataEntries B.
Proof.
  intros Hr. destruct (apply_set_operation_Ok A B op_union) as (r' & Hr' & _ & Hm).
  unfold union in Hr. rewrite Hr in Hr'. injection Hr' as <-.
  apply map_eq. intros k. rewrite Hm. simpl.
  destruct (decide (k ∈ dom (metadataEntries A) ∪ dom (metadataEntries B)))
    as [Hk | Hk].
  - rewrite bool_decide_eq_true_2 by done. reflexivity.
  - rewrite bool_decide_eq_false_2 by done. symmetry.
    apply not_elem_of_dom. rewrite dom_union_L. exact Hk.
Qed.

Lemma intersection_lookup A B r k :
  intersection A (VBundle B) = Ok r →
  metadataEntries r !! k
  = match metadataEntries B !! k with
    | Some _ => metadataEntries A !! k
    | None => None
    end.
Proof.
  intros Hr.
  destruct (apply_set_operation_Ok A B op_intersection) as (r' & Hr' & _ & Hm).
  unfold intersection in Hr. rewrite Hr in Hr'. injection Hr' as <-.
  rewrite Hm, lookup_prefer_self. simpl.
  destruct (metadataEntries A !! k) as [ea|] eqn:Ha,
           (metadataEntries B !! k) as [eb|] eqn:Hb.
  - rewrite bool_decide_eq_true_2; [reflexivity|].
    apply elem_of_intersection; split; apply elem_of_dom; eauto.
  - rewrite bool_decide_eq_false_2; [reflexivity|].
    intros [_ H]%elem_of_intersection. apply elem_of_dom in H as [? H]. congruence.
  - rewrite bool_decide_eq_false_2; [reflexivity|].
    intros [H _]%elem_of_intersection. apply elem_of_dom in H as [? H]. congruence.
  - destruct (bool_decide _); reflexivity.
Qed.

Lemma dict_eq_refl (d : Entries) : dict_eq d d = true.
Proof. unfold dict_eq. apply bool_decide_eq_true. reflexivity. Qed.

Lemma dict_eq_lookup (d1 d2 : Entries) :
  dict_eq d1 d2 = true ↔ ∀ k, oid <$> d1 !! k = oid <$> d2 !! k.
Proof.
  unfold dict_eq. rewrite bool_decide_eq_true. split.
  - intros H k. rewrite <- !lookup_fmap, H. reflexivity.
  - intros H. apply map_eq. intros k. rewrite !lookup_fmap. apply H.
Qed.

Lemma size_inclusion_exclusion (a b : gset string) :
  (size (a ∪ b) + size (a ∩ b) = size a + size b)%nat.
Proof.
  assert (Hb : b = (a ∩ b) ∪ (b ∖ a)).
  { apply set_eq. intros k. destruct (decide (k ∈ a)); set_solver. }
  assert (Hsb : size b = (size (a ∩ b) + size (b ∖ a))%nat).
  { rewrite Hb at 1. apply (size_union (C := gset string)). set_solver. }
  rewrite (size_union_alt (C := gset string)), Hsb. lia.
Qed.

(** C4, as amended: union with the same operand twice equals union once;
    the two orders of intersection have the same keys and compare equal
    exactly when the operands hold the same entry object at every shared
    key; the entry counts obey inclusion and exclusion. *)
Theorem union_intersection_laws (A B : MetadataBundle) :
  ∃ AB ABB I J,
    union A (VBundle B) = Ok AB
    ∧ union AB (VBundle B) = Ok ABB
    ∧ intersection A (VBundle B) = Ok I
    ∧ intersection B (VBundle A) = Ok J
    ∧ __eq__ ABB (VBundle AB) = true
    ∧ dom (metadataEntries I) = dom (metadataEntries J)
    ∧ (__eq__ I (VBundle J) = true ↔ agree_on_shared A B)
    ∧ __len__ AB = __len__ A + __len__ B - __len__ I.
Proof.
  destruct (apply_set_operation_Ok A B op_union) as (AB & HAB & _ & _).
  destruct (apply_set_operation_Ok AB B op_union) as (ABB & HABB & _ & _).
  destruct (apply_set_operation_Ok A B op_intersection) as (I & HI & _ & _).
  destruct (apply_set_operation_Ok B A op_intersection) as (J & HJ & _ & _).
  exists AB, ABB, I, J. repeat (split; [assumption|]).
  pose proof (union_entries _ _ _ HAB) as EAB.
  pose proof (union_entries _ _ _ HABB) as EABB.
  pose proof (apply_set_operation_dom _ _ _ _ HI) as DI.
  pose proof (apply_set_operation_dom _ _ _ _ HJ) as DJ.
  simpl in DI, DJ.
  split; [|split; [|split]].
  - unfold __eq__. rewrite EABB, EAB.
    rewrite <- (assoc (∪)), (idemp (∪) (metadataEntries B)).
    rewrite dict_eq_refl. reflexivity.
  - rewrite DI, DJ. apply set_eq. intros k. set_solver.
  - unfold __eq__.
    assert (Hiff : dict_eq (metadataEntries I) (metadataEntries J) = true
                   ↔ agree_on_shared A B).
    { rewrite dict_eq_lookup. unfold agree_on_shared. split.
      - intros H k e1 e2 H1 H2. specialize (H k).
        rewrite (intersection_lookup _ _ _ k HI),
                (intersection_lookup _ _ _ k HJ), H1, H2 in H.
        simpl in H. congruence.
      - intros H k.
        rewrite (intersection_lookup _ _ _ k HI),
                (intersection_lookup _ _ _ k HJ).
        destruct (metadataEntries A !! k) as [e1|] eqn:H1,
                 (metadataEntries B !! k) as [e2|] eqn:H2; simpl; try reflexivity.
        f_equal. eapply H; eassumption. }
    destruct (dict_eq _ _); exact Hiff.
  - unfold __len__. rewrite <- !size_dom, EAB, dom_union_L, DI.
    pose proof (size_inclusion_exclusion (dom (metadataEntries A))
                  (dom (metadataEntries B))).
    lia.
Qed.

(** C4, as stated, fails: two bundles built independently hold distinct
    entry objects for the same source, and the two orders of intersection
    then compare unequal. *)
Lemma intersection_eq_not_commutative :
  let A := Sample.bundle_of None [Sample.mxl] in
  let B := Sample.bundle_of None [Sample.mxl_again] in
  (I ← intersection A (VBundle B);
   J ← intersection B (VBundle A);
   Ok (__eq__ I (VBundle J))) = Ok false.
Proof. vm_compute. reflexivity. Qed.

Lemma union_intersection_laws_witness :
  let A := Sample.bundle_of None [Sample.mxl; Sample.xml] in
  let B := Sample.bundle_of None [Sample.mxl; Sample.krn] in
  agree_on_shared A B
  ∧ ∃ I J,
      intersection A (VBundle B) = Ok I
      ∧ intersection B (VBundle A) = Ok J
      ∧ __eq__ I (VBundle J) = true.
Proof.
  intros A B.
  assert (Hag : agree_on_shared A B).
  { intros k e1 e2 H1 H2.
    apply elem_of_list_to_map_2 in H1. apply elem_of_list_to_map_2 in H2.
    cbn [fmap list_fmap] in H1, H2.
    repeat match goal with
    | H : _ ∈ _ :: _ |- _ => apply elem_of_cons in H as [H | H]
    | H : _ ∈ [] |- _ => apply elem_of_nil in H; destruct H
    end; simplify_eq; try reflexivity;
    match goal with H : corpusPath _ = corpusPath _ |- _ =>
      vm_compute in H; discriminate H end. }
  split; [exact Hag|].
  destruct (union_intersection_laws A B)
    as (AB & ABB & I & J & _ & _ & HI & HJ & _ & _ & Hiff & _).
  exists I, J. split; [exact HI|]. split; [exact HJ|].
  apply Hiff, Hag.
Defined.

(** ** Search *)

Lemma include_loop_true sourcePath0 exts :
  include_loop sourcePath0 exts = true
  ↔ ∃ e, e ∈ exts ∧
      (Py.endswith sourcePath0 e = true
       ∨ (Py.endswith e "xml" = true
          ∧ (Py.endswith sourcePath0 "mxl" = true
             ∨ Py.endswith sourcePath0 "mx" = true))).
Proof.
  induction exts as [| x exts IH]; simpl.
  - split; [discriminate|]. intros (e & He & _). by apply elem_of_nil in He.
  - destruct (Py.endswith sourcePath0 x) eqn:Hx.
    { split; [|done]. intros _. exists x. split; [left|]; auto. }
    destruct (Py.endswith x "xml") eqn:Hxml; simpl.
    + destruct (Py.endswith sourcePath0 "mxl" || Py.endswith sourcePath0 "mx")
        eqn:Hc.
      * split; [|done]. intros _. exists x. split; [left; done|]. right.
        split; [done|]. by apply orb_prop in Hc.
      * apply orb_false_elim in Hc as [Hc1 Hc2]. rewrite IH. split.
        -- intros (e & He & H). exists e. split; [by right|done].
        -- intros (e & [-> | He]%elem_of_cons & H); [|by exists e].
           destruct H as [H | (_ & [H | H])]; congruence.
    + rewrite IH. split.
      * intros (e & He & H). exists e. split; [by right|done].
      * intros (e & [-> | He]%elem_of_cons & H); [|by exists e].
        destruct H as [H | (H & _)]; congruence.
Qed.

Lemma include_true sourcePath0 fileExtensions :
  include sourcePath0 fileExtensions = true
  ↔ filter_as_coded sourcePath0 fileExtensions.
Proof.
  destruct fileExtensions as [exts|]; simpl; [apply include_loop_true | done].
Qed.

Lemma search_step_keeps query field fileExtensions key e (acc : Entries) :
  acc !! key = None →
  search_step query field fileExtensions key e acc
  = if search_keeps query field fileExtensions e then <[key := e]> acc else acc.
Proof.
  intros Hk. unfold search_step, search_keeps.
  destruct (metadataPayload e) as [p|]; [|reflexivity].
  destruct (payload_search p query field); [|reflexivity]. simpl.
  rewrite (bool_decide_eq_false_2 (key ∈ dom acc)) by by apply not_elem_of_dom.
  rewrite andb_true_r. reflexivity.
Qed.

(** The loop of [search] keeps exactly the hits, under their own keys. *)
Lemma search_lookup self query field fileExtensions k :
  metadataEntries (search self query field fileExtensions) !! k
  = e ← metadataEntries self !! k;
    if search_keeps query field fileExtensions e then Some e else None.
Proof.
  unfold search; simpl. revert k.
  apply (map_fold_weak_ind
    (fun (r m : Entries) => ∀ k,
       r !! k = e ← m !! k;
                if search_keeps query field fileExtensions e then Some e else None)).
  - intros k. rewrite !lookup_empty. reflexivity.
  - intros i x m r Hi IH k.
    assert (Hr : r !! i = None) by (rewrite IH, Hi; reflexivity).
    rewrite search_step_keeps by exact Hr.
    destruct (decide (k = i)) as [-> | Hne].
    + rewrite lookup_insert_eq. simpl.
      destruct (search_keeps query field fileExtensions x).
      * by rewrite lookup_insert_eq.
      * exact Hr.
    + rewrite (lookup_insert_ne m) by done. rewrite <- IH.
      destruct (search_keeps query field fileExtensions x);
        [by rewrite lookup_insert_ne | done].
Qed.

(** *** Suffix tests *)

Lemma append_cons (c : ascii) (s t : string) :
  String c s +:+ t = String c (s +:+ t).
Proof. reflexivity. Qed.

Lemma append_empty_r (s : string) : s +:+ "" = s.
Proof.
  induction s as [| c s IH]; [reflexivity | by rewrite append_cons, IH].
Qed.

Lemma append_assoc' (a b c : string) : (a +:+ b) +:+ c = a +:+ (b +:+ c).
Proof.
  induction a as [| x a IH]; [reflexivity | by rewrite !append_cons, IH].
Qed.

Lemma rev_app_append (s1 s2 : string) :
  String.rev_app s1 s2 = String.rev s1 +:+ s2.
Proof.
  unfold String.rev. revert s2.
  induction s1 as [| c s1 IH]; intros s2; simpl; [reflexivity|].
  rewrite (IH (String c s2)), (IH (String c "")), append_assoc'. reflexivity.
Qed.

Lemma rev_append (a b : string) :
  String.rev (a +:+ b) = String.rev b +:+ String.rev a.
Proof.
  induction a as [| c a IH].
  - by rewrite append_empty_r.
  - rewrite append_cons. unfold String.rev at 1 3. simpl.
    rewrite !rev_app_append, IH, append_assoc'. reflexivity.
Qed.

Lemma prefix_append (x y : string) : String.prefix x (x +:+ y) = true.
Proof.
  induction x as [| c x IH]; [by destruct y|].
  rewrite append_cons. simpl. destruct (ascii_dec c c); [exact IH | done].
Qed.

Lemma endswith_append (a b : string) : Py.endswith (a +:+ b) b = true.
Proof. unfold Py.endswith. rewrite rev_append. apply prefix_append. Qed.

Lemma extension_go_suffix (s ext : string) :
  extension_go s ext = ext ∨ ∃ a, s = a +:+ extension_go s ext.
Proof.
  revert ext. induction s as [| c s IH]; intros ext; simpl; [by left|].
  destruct (Ascii.eqb c "/").
  { right. destruct (IH "") as [-> | [a Ha]].
    - exists (String c s). by rewrite append_empty_r.
    - exists (String c a). by rewrite append_cons, <- Ha. }
  destruct (Ascii.eqb c ".").
  { right. destruct (IH (String c s)) as [-> | [a Ha]].
    - by exists "".
    - exists (String c a). by rewrite append_cons, <- Ha. }
  destruct (IH ext) as [-> | [a Ha]]; [by left|].
  right. exists (String c a). by rewrite append_cons, <- Ha.
Qed.

(** The extension of a path is a suffix of the path. *)
Lemma endswith_extension (p : string) : Py.endswith p (extension p) = true.
Proof.
  unfold extension. destruct (extension_go_suffix p "") as [-> | [a Ha]].
  - unfold Py.endswith. simpl. by destruct (String.rev p).
  - rewrite Ha at 1. apply endswith_append.
Qed.

Lemma prefix_cons_cons (a b : ascii) (s t : string) :
  String.prefix (String a s) (String b t)
  = if Ascii.eqb a b then String.prefix s t else false.
Proof.
  cbn [String.prefix]. destruct (ascii_dec a b) as [-> | Hn].
  - by rewrite Ascii.eqb_refl.
  - apply Ascii.eqb_neq in Hn. by rewrite Hn.
Qed.

Lemma endswith_dot_mxl (p : string) :
  Py.endswith p ".mxl" = true → Py.endswith p "mxl" = true.
Proof.
  unfold Py.endswith. change (String.rev ".mxl") with "lxm.".
  change (String.rev "mxl") with "lxm".
  generalize (String.rev p) as r. intros r H.
  do 3 (destruct r as [| ? r]; [discriminate H|];
        rewrite prefix_cons_cons in H; rewrite prefix_cons_cons;
        destruct (Ascii.eqb _ _); [|discriminate H]).
  by destruct r.
Qed.

Lemma endswith_dot_krn (p : string) :
  Py.endswith p ".krn" = true →
  Py.endswith p ".xml" = false
  ∧ Py.endswith p "mxl" = false
  ∧ Py.endswith p "mx" = false.
Proof.
  unfold Py.endswith. change (String.rev ".krn") with "nrk.".
  change (String.rev ".xml") with "lmx.".
  change (String.rev "mxl") with "lxm". change (String.rev "mx") with "xm".
  generalize (String.rev p) as r. intros r H.
  destruct r as [| c r]; [discriminate H|].
  rewrite prefix_cons_cons in H.
  destruct (Ascii.eqb "n" c) eqn:E; [|discriminate H].
  apply Ascii.eqb_eq in E. subst c. repeat split; reflexivity.
Qed.

(** C5, as amended: [search] returns an anonymous bundle that holds, under
    their own keys, exactly the entries of [self] that have a payload, whose
    payload reports a match, and whose source path passes the filter: no
    filter, or some filter member is a suffix of the source path, or some
    filter member ends in "xml" and the source path ends in "mxl" or "mx".
    A source path whose extension is a filter member passes; with the
    filter [".xml"] a path ending in ".mxl" passes and a path ending in
    ".krn" does not.  The result is built in a new dictionary; [self] is
    only read. *)
Theorem search_selects (self : MetadataBundle) (query : string)
    (field : option string) (fileExtensions : option (list string)) :
  let r := search self query field fileExtensions in
  name r = None
  ∧ (∀ k e,
       metadataEntries r !! k = Some e
       ↔ metadataEntries self !! k = Some e
         ∧ ∃ p, metadataPayload e = Some p
                ∧ payload_search p query field = true
                ∧ filter_as_coded (sourcePath e) fileExtensions)
  ∧ (∀ path exts, extension path ∈ exts → filter_as_coded path (Some exts))
  ∧ (∀ path, Py.endswith path ".mxl" = true → filter_as_coded path (Some [".xml"]))
  ∧ (∀ path, Py.endswith path ".krn" = true → ¬ filter_as_coded path (Some [".xml"])).
Proof.
  intros r. split; [reflexivity|]. split; [|split; [|split]].
  - intros k e. unfold r. rewrite search_lookup.
    destruct (metadataEntries self !! k) as [e'|] eqn:Hk; simpl.
    + unfold search_keeps.
      destruct (metadataPayload e') as [p|] eqn:Hp.
      * destruct (payload_search p query field) eqn:Hs; simpl.
        -- destruct (include (sourcePath e') fileExtensions) eqn:Hi.
           ++ split.
              ** intros [= <-]. split; [done|]. exists p.
                 repeat split; try done. by apply include_true.
              ** by intros [? _].
           ++ split; [done|]. intros ([= <-] & p' & Hp' & _ & Hf).
              apply include_true in Hf. congruence.
        -- split; [done|]. intros ([= <-] & p' & Hp' & Hs' & _). congruence.
      * split; [done|]. intros ([= <-] & p' & Hp' & _). congruence.
    + split; [done|]. by intros [? _].
  - intros path exts Hin. exists (extension path).
    split; [exact Hin|]. left. apply endswith_extension.
  - intros path H. exists ".xml". split; [by left|]. right.
    split; [reflexivity|]. left. by apply endswith_dot_mxl.
  - intros path H (e & He & Hf). apply list_elem_of_singleton in He. subst e.
    apply endswith_dot_krn in H as (H1 & H2 & H3).
    destruct Hf as [Hf | (_ & [Hf | Hf])]; congruence.
Qed.

(** C5, as stated, fails: with the filter ["krn"] the code keeps an entry
    whose source path has the extension ".krn", which is not a member of
    the filter, and the filter has no member of the xml family. *)
Lemma search_suffix_not_extension :
  let self := Sample.bundle_of None [Sample.krn] in
  metadataEntries (search self "bach" (Some "composer") (Some ["krn"]))
    !! "essen_han1_krn" = Some Sample.krn
  ∧ extension (sourcePath Sample.krn) = ".krn"
  ∧ filter_as_worded (sourcePath Sample.krn) (Some ["krn"]) = false.
Proof. vm_compute. repeat split; reflexivity. Qed.

Lemma search_selects_witness :
  let self := Sample.bundle_of None [Sample.mxl; Sample.krn] in
  let r := search self "bach" (Some "composer") (Some [".xml"]) in
  Py.endswith (sourcePath Sample.mxl) ".mxl" = true
  ∧ Py.endswith (sourcePath Sample.krn) ".krn" = true
  ∧ metadataEntries r !! corpusPath Sample.mxl = Some Sample.mxl
  ∧ metadataEntries r !! corpusPath Sample.krn ≠ Some Sample.krn.
Proof.
  intros self r.
  assert (Hm : Py.endswith (sourcePath Sample.mxl) ".mxl" = true)
    by (vm_compute; reflexivity).
  assert (Hk : Py.endswith (sourcePath Sample.krn) ".krn" = true)
    by (vm_compute; reflexivity).
  split; [exact Hm|]. split; [exact Hk|].
  destruct (search_selects self "bach" (Some "composer") (Some [".xml"]))
    as (_ & Hsel & _ & Hyes & Hno).
  split.
  - apply Hsel. split; [vm_compute; reflexivity|].
    exists Sample.bach. split; [reflexivity|]. split; [reflexivity|].
    apply Hyes, Hm.
  - intros Hin. apply Hsel in Hin as (_ & _ & _ & _ & Hf).
    exact (Hno _ Hk Hf).
Defined.

(** ** Incremental rebuild *)

Section Scheduling.

Variables (env : Env) (fs : FileSystem) (self : MetadataBundle).
Variables (useCorpus : bool) (mtime : Z).

Lemma scheduled_snoc q js j :
  scheduled q (js ++ [j]) ↔ scheduled q js ∨ job_filePath j = q.
Proof.
  unfold scheduled. split.
  - intros (j' & [Hin | ->%list_elem_of_singleton]%elem_of_app & Hq); eauto.
  - intros [(j' & Hin & Hq) | Hq].
    + exists j'. split; [apply elem_of_app; by left | done].
    + exists j. split; [apply elem_of_app; right; by left | done].
Qed.

Lemma schedule_step_spec st p :
  (consults_ctime env self p = true →
   is_Some (fs !! abspath env (normalized env p))) →
  ∃ st',
    schedule_step env fs self useCorpus mtime st p = Ok st'
    ∧ if cache_hit env fs self mtime (normalized env p)
      then jobs st' = jobs st
      else ∃ j, jobs st' = jobs st ++ [j] ∧ job_filePath j = normalized env p.
Proof.
  intros Hfile. unfold schedule_step, cache_hit.
  change (if negb (Py.startswith p "http") then abspath env p else p)
    with (normalized env p).
  unfold consults_ctime in Hfile. cbv zeta in Hfile.
  destruct (bool_decide _ && negb _)%bool eqn:Hc; simpl.
  - destruct (Hfile eq_refl) as [f Hf]. unfold getctime. rewrite Hf. simpl.
    destruct (ctime f <? mtime); eexists; (split; [reflexivity|]); simpl; eauto.
  - eexists; split; [reflexivity|]. simpl. eauto.
Qed.

Lemma schedule_loop_spec paths : ∀ st,
  (∀ p, p ∈ paths → consults_ctime env self p = true →
        is_Some (fs !! abspath env (normalized env p))) →
  ∃ st',
    schedule_loop env fs self useCorpus mtime st paths = Ok st'
    ∧ ∀ q, scheduled q (jobs st')
           ↔ scheduled q (jobs st)
             ∨ ∃ p, p ∈ paths ∧ normalized env p = q
                    ∧ cache_hit env fs self mtime q = false.
Proof.
  induction paths as [| p paths IH]; intros st Hfiles; simpl.
  - exists st. split; [reflexivity|]. intros q. split; [by left|].
    intros [H | (p & Hp & _)]; [done | by apply elem_of_nil in Hp].
  - destruct (schedule_step_spec st p) as (st1 & -> & Hjobs).
    { apply Hfiles. by left. }
    simpl. destruct (IH st1) as (st' & -> & Hst').
    { intros p' Hp'. apply Hfiles. by right. }
    exists st'. split; [reflexivity|]. intros q. rewrite Hst'.
    destruct (cache_hit env fs self mtime (normalized env p)) eqn:Hhit.
    + rewrite Hjobs. split.
      * intros [H | (p' & Hp' & Hq & Hh)]; [by left|].
        right. exists p'. split; [by right | done].
      * intros [H | (p' & [-> | Hp']%elem_of_cons & Hq & Hh)]; [by left | |].
        -- congruence.
        -- right. by exists p'.
    + destruct Hjobs as (j & -> & Hj). rewrite scheduled_snoc. split.
      * intros [[H | Hq] | (p' & Hp' & Hq & Hh)].
        -- by left.
        -- right. exists p. split; [by left|]. split; congruence.
        -- right. exists p'. split; [by right | done].
      * intros [H | (p' & [-> | Hp']%elem_of_cons & Hq & Hh)].
        -- by left; left.
        -- left; right. congruence.
        -- right. by exists p'.
Qed.

End Scheduling.

Lemma metadataBundleModificationTime_Ok env fs now self :
  ∃ mtime,
    metadataBundleModificationTime env fs now self = Ok mtime
    ∧ ∀ sp f, filePath env self = Some sp → fs !! abspath env sp = Some f →
              mtime = ctime f.
Proof.
  unfold metadataBundleModificationTime, exists_, getctime.
  destruct (filePath env self) as [sp|].
  - destruct (fs !! abspath env sp) as [f|] eqn:Hf.
    + rewrite bool_decide_eq_true_2 by eauto. exists (ctime f).
      split; [reflexivity|]. intros ? ? [= <-] ?. congruence.
    + rewrite bool_decide_eq_false_2 by (intros [? ?]; congruence).
      exists now. split; [reflexivity|]. intros ? ? [= <-] ?. congruence.
  - exists now. split; [reflexivity|]. intros; congruence.
Qed.


(** ** Validator *)

(** C3 fails on the code: two entries share a source path that is missing
    from the disk; [validate] checks the path for the first entry only,
    skips the second, returns 1 and leaves one of the two in the bundle. *)
Theorem validate_skips_shared_missing_path :
  let self := Sample.bundle_of None [Sample.opus1; Sample.opus2] in
  sourcePath Sample.opus1 = sourcePath Sample.opus2
  ∧ Py.startswith (sourcePath Sample.opus1) "http:" = false
  ∧ exists_ Sample.env ∅ (sourcePath Sample.opus1) = false
  ∧ size (metadataEntries self) = 2%nat
  ∧ (validate Sample.env ∅ self).2 = 1
  ∧ size (metadataEntries (validate Sample.env ∅ self).1) = 1%nat.
Proof. vm_compute. repeat split; reflexivity. Qed.

(** The outcome does not depend on the order in which the two entries are
    met: in either order one key is invalidated. *)
Lemma validate_loop_either_order :
  let i1 := (corpusPath Sample.opus1, Sample.opus1) in
  let i2 := (corpusPath Sample.opus2, Sample.opus2) in
  (validate_loop Sample.env ∅ [i1; i2]).1 = [corpusPath Sample.opus1]
  ∧ (validate_loop Sample.env ∅ [i2; i1]).1 = [corpusPath Sample.opus2].
Proof. vm_compute. split; reflexivity. Qed.

(** What does hold: a key is invalidated only for an entry that is not an
    "http:" source and whose resolved path is missing. *)
Lemma validate_loop_sound env fs items : ∀ st k,
  k ∈ (foldl (fun st kv => validate_step env fs kv.1 kv.2 st) st items).1 →
  k ∈ st.1
  ∨ ∃ e, (k, e) ∈ items
         ∧ Py.startswith (sourcePath e) "http:" = false
         ∧ exists_ env fs
             (if negb (OsPath.isabs (sourcePath e))
              then abspath env (OsPath.join (getCorpusFilePath env) (sourcePath e))
              else sourcePath e) = false.
Proof.
  induction items as [| [key e] items IH]; intros st k; simpl; [by left|].
  intros Hk. apply IH in Hk as [Hk | (e' & Hin & Hh & Hx)].
  - destruct st as [inv seen]. unfold validate_step in Hk.
    destruct (bool_decide (sourcePath e ∈ seen)); [by left|].
    destruct (Py.startswith (sourcePath e) "http:") eqn:Hh; [by left|].
    destruct (negb (exists_ env fs _)) eqn:Hx; [|by left].
    simpl in Hk. apply elem_of_app in Hk as [Hk | ->%list_elem_of_singleton];
      [by left|].
    right. exists e. split; [by left|]. split; [done|].
    by apply negb_true_iff in Hx.
  - right. exists e'. split; [by right | done].
Qed.

(** ** Persistence *)

(** C1 fails on the code: an anonymous bundle written to an explicit path
    leaves the disk as it was, and a named bundle written to an explicit
    path goes to its default location instead. *)
Theorem write_ignores_explicit_path :
  write Sample.env 7 (Sample.bundle_of None [Sample.mxl]) (Some "/tmp/bach.json") ∅
  = ∅
  ∧ write Sample.env 7 Sample.core (Some "/tmp/bach.json") ∅ !! "/tmp/bach.json"
    = None
  ∧ write Sample.env 7 Sample.core (Some "/tmp/bach.json") ∅ !! Sample.core_json
    = Some {| ctime := 7;
              data := jsonFreeze Sample.env (metadataEntries Sample.core) |}.
Proof. vm_compute. repeat split; reflexivity. Qed.

(** What [write] does for every bundle: nothing when the bundle is
    anonymous, and a snapshot at the default location otherwise, whatever
    the argument. *)
Lemma write_cases env now self filePath_arg fs :
  match filePath env self with
  | None => write env now self filePath_arg fs = fs
  | Some p =>
      write env now self filePath_arg fs
      = <[abspath env p :=
            {| ctime := now; data := jsonFreeze env (metadataEntries self) |}]> fs
  end.
Proof. unfold write. destruct (filePath env self); reflexivity. Qed.

Lemma filePath_None env self : filePath env self = None ↔ name self = None.
Proof.
  unfold filePath. destruct (name self) as [n|]; [|done].
  split; [|done].
  destruct (String.eqb n "virtual" || String.eqb n "core")%bool; [done|].
  destruct (String.eqb n "local"); done.
Qed.

(** C6: [read] raises the metadata exception exactly when no path is given
    and the bundle is anonymous; when the resolved file does not exist it
    returns the bundle unchanged; when the file exists and thaws, the
    entries of the bundle are those of the snapshot, whatever they were
    before. *)
Theorem read_outcomes (env : Env) (self : MetadataBundle)
    (filePath_arg : option string) (fs : FileSystem) :
  ((∃ msg, read env self filePath_arg fs = Raise (MetadataException msg))
   ↔ filePath_arg = None ∧ name self = None)
  ∧ (∀ p, resolved_path env self filePath_arg = Some p →
          exists_ env fs p = false →
          read env self filePath_arg fs = Ok self)
  ∧ (∀ p f entries,
       resolved_path env self filePath_arg = Some p →
       fs !! abspath env p = Some f →
       jsonThaw env (data f) = Some entries →
       read env self filePath_arg fs
       = Ok {| name := name self; metadataEntries := entries |}).
Proof.
  unfold read. fold (resolved_path env self filePath_arg).
  split; [|split].
  - split.
    + intros [msg H].
      destruct (resolved_path env self filePath_arg) as [p|] eqn:Hp.
      * simpl in H. unfold jsonRead in H.
        destruct (negb (exists_ env fs p)); [discriminate H|].
        destruct (fs !! abspath env p) as [f|]; [|discriminate H].
        destruct (jsonThaw env (data f)); discriminate H.
      * unfold resolved_path in Hp. destruct filePath_arg; [discriminate Hp|].
        split; [reflexivity|]. by apply filePath_None in Hp.
    + intros [-> Hn]. unfold resolved_path.
      rewrite (proj2 (filePath_None env self) Hn), Hn. simpl. eauto.
  - intros p Hp Hex. rewrite Hp, Hex. reflexivity.
  - intros p f entries Hp Hf Hthaw. rewrite Hp. simpl.
    unfold exists_. rewrite bool_decide_eq_true_2 by (rewrite Hf; eauto). simpl.
    unfold jsonRead. rewrite Hf, Hthaw. reflexivity.
Qed.

Lemma read_outcomes_witness :
  let self := Sample.bundle_of (Some "core") [Sample.krn] in
  resolved_path Sample.env self None = Some Sample.core_json
  ∧ Sample.disk 100 !! abspath Sample.env Sample.core_json = Some (Sample.file 100)
  ∧ jsonThaw Sample.env (data (Sample.file 100)) = Some ∅
  ∧ read Sample.env self None (Sample.disk 100)
    = Ok {| name := Some "core"; metadataEntries := ∅ |}.
Proof.
  intros self.
  assert (H1 : resolved_path Sample.env self None = Some Sample.core_json)
    by (vm_compute; reflexivity).
  assert (H2 : Sample.disk 100 !! abspath Sample.env Sample.core_json
               = Some (Sample.file 100)) by (vm_compute; reflexivity).
  assert (H3 : jsonThaw Sample.env (data (Sample.file 100)) = Some ∅)
    by (vm_compute; reflexivity).
  split; [exact H1|]. split; [exact H2|]. split; [exact H3|].
  exact (proj2 (proj2 (read_outcomes Sample.env self None (Sample.disk 100)))
           Sample.core_json (Sample.file 100) ∅ H1 H2 H3).
Defined.

(** * Further properties *)

(** ** The key codec *)

Lemma occurs_append c (s t : string) :
  occurs c (s +:+ t) = occurs c s || occurs c t.
Proof.
  induction s as [| x s IH]; [reflexivity|].
  rewrite append_cons. simpl. rewrite IH. by rewrite orb_assoc.
Qed.

Lemma occurs_replace_same (a b : ascii) (s : string) :
  a ≠ b → occurs a (Py.replace a b s) = false.
Proof.
  intros Hab. induction s as [| x s IH]; [reflexivity|]. simpl. rewrite IH.
  destruct (Ascii.eqb x a) eqn:Hx.
  - rewrite orb_false_r. apply Ascii.eqb_neq. congruence.
  - by rewrite Hx.
Qed.

Lemma occurs_replace_other (a b c : ascii) (s : string) :
  b ≠ c → occurs c s = false → occurs c (Py.replace a b s) = false.
Proof.
  intros Hbc. induction s as [| x s IH]; [done|]. simpl.
  intros [Hx Hs]%orb_false_elim. rewrite (IH Hs), orb_false_r.
  destruct (Ascii.eqb x a); [by apply Ascii.eqb_neq | exact Hx].
Qed.

Lemma occurs_cons c x (s : string) :
  occurs c (String x s) = Ascii.eqb x c || occurs c s.
Proof. reflexivity. Qed.

Lemma occurs_pretty_N_go c (x : N) : ∀ s,
  (∀ d, pretty_N_char d ≠ c) → occurs c s = false →
  occurs c (pretty_N_go x s) = false.
Proof.
  induction (N.lt_wf_0 x) as [x _ IH]. intros s Hc Hs.
  destruct (decide (x = 0)%N) as [-> | Hx]; [by rewrite pretty_N_go_0|].
  rewrite pretty_N_go_step by lia. apply IH; [apply N.div_lt; lia | done |].
  rewrite occurs_cons, Hs, orb_false_r. apply Ascii.eqb_neq, Hc.
Qed.

Lemma occurs_pretty_Z c (n : Z) :
  (∀ d, pretty_N_char d ≠ c) → c ≠ "-"%char →
  occurs c (pretty n) = false.
Proof.
  intros Hc Hdash.
  assert (H0 : occurs c "0" = false).
  { rewrite occurs_cons. change (occurs c "") with false.
    rewrite orb_false_r. apply Ascii.eqb_neq. apply (Hc 0%N). }
  assert (HN : ∀ x : N, occurs c (pretty x) = false).
  { intros x. unfold pretty, pretty_N. case_decide; [exact H0|].
    by apply occurs_pretty_N_go. }
  destruct n as [| p | p]; unfold pretty, pretty_Z.
  - exact H0.
  - apply (HN (Npos p)).
  - rewrite occurs_append, occurs_cons. change (occurs c "") with false.
    rewrite orb_false_r.
    rewrite (proj2 (Ascii.eqb_neq _ _)) by congruence. apply (HN (Npos p)).
Qed.

Lemma digit_not_slash d : pretty_N_char d ≠ "/"%char.
Proof. unfold pretty_N_char. by repeat case_match. Qed.

Lemma digit_not_dot d : pretty_N_char d ≠ "."%char.
Proof. unfold pretty_N_char. by repeat case_match. Qed.

(** X1: a key never contains a path separator or a dot, whatever the
    path and the number. *)
Theorem corpusPathToKey_filesystem_safe (filePath0 : string) (number0 : option Z) :
  occurs "/" (corpusPathToKey filePath0 number0) = false
  ∧ occurs "." (corpusPathToKey filePath0 number0) = false.
Proof.
  unfold corpusPathToKey.
  set (p := if Py.startswith _ _ then _ else _).
  assert (Hs : occurs "/" (Py.replace "." "_" (Py.replace "/" "_" (Py.replace "/" "_" p)))
               = false).
  { apply occurs_replace_other; [done|]. by apply occurs_replace_same. }
  assert (Hd : occurs "." (Py.replace "." "_" (Py.replace "/" "_" (Py.replace "/" "_" p)))
               = false).
  { by apply occurs_replace_same. }
  destruct number0 as [n|]; [|by split].
  rewrite !occurs_append, Hs, Hd.
  rewrite (occurs_pretty_Z "/" n digit_not_slash) by done.
  rewrite (occurs_pretty_Z "." n digit_not_dot) by done. by split.
Qed.

Lemma length_append (s t : string) :
  String.length (s +:+ t) = (String.length s + String.length t)%nat.
Proof.
  induction s as [| x s IH]; [reflexivity|]. rewrite append_cons. simpl. by rewrite IH.
Qed.

(** X2: for one path, different numbers (or a number and none) give
    different keys. *)
Theorem corpusPathToKey_number_inj (filePath0 : string) (n m : option Z) :
  n ≠ m → corpusPathToKey filePath0 n ≠ corpusPathToKey filePath0 m.
Proof.
  intros Hnm H. apply Hnm. revert H. unfold corpusPathToKey.
  set (base := Py.replace "." "_" _).
  assert (Hlen : ∀ z : Z, base +:+ "_" +:+ pretty z ≠ base).
  { intros z H. apply (f_equal String.length) in H.
    rewrite !length_append in H. simpl in H. lia. }
  destruct n as [n|], m as [m|]; intros H.
  - apply (inj (String.app base)), (inj (String.app "_")) in H.
    by apply (inj pretty) in H as ->.
  - by apply Hlen in H.
  - symmetry in H. by apply Hlen in H.
  - reflexivity.
Qed.

Lemma corpusPathToKey_number_inj_witness :
  Some 1 ≠ Some 2
  ∧ corpusPathToKey "/scores/opus.abc" (Some 1)
    ≠ corpusPathToKey "/scores/opus.abc" (Some 2).
Proof.
  assert (H : Some 1 ≠ Some 2) by discriminate.
  split; [exact H|].
  exact (corpusPathToKey_number_inj "/scores/opus.abc" (Some 1) (Some 2) H).
Defined.

Lemma split_last_go_skip sep k piece c (s : string) :
  Py.split_last_go sep (S k) piece (String c s) = Py.split_last_go sep k piece s.
Proof. reflexivity. Qed.

Lemma split_last_go_scan sep piece c (s : string) :
  Py.split_last_go sep O piece (String c s)
  = if String.prefix sep (String c s)
    then Py.split_last_go sep (Nat.pred (String.length sep))
           (Py.drop (String.length sep) (String c s)) s
    else Py.split_last_go sep O piece s.
Proof. reflexivity. Qed.

(** Without an occurrence of the separator the piece is never replaced. *)
Lemma split_last_go_absent sep (s : string) : ∀ piece,
  Py.contains s sep = false → Py.split_last_go sep O piece s = piece.
Proof.
  induction s as [| c s IH]; intros piece H; [reflexivity|].
  rewrite split_last_go_scan.
  change (Py.contains (String c s) sep)
    with (String.prefix sep (String c s) || Py.contains s sep) in H.
  apply orb_false_elim in H as [-> H]. by apply IH.
Qed.

Lemma contains_append (a s p : string) :
  String.prefix p s = true → Py.contains (a +:+ s) p = true.
Proof.
  intros Hp. induction a as [| c a IH].
  - change ("" +:+ s) with s. destruct s as [| c s].
    + change (Py.contains "" p) with (String.prefix p "" || false).
      by rewrite Hp.
    + change (Py.contains (String c s) p)
        with (String.prefix p (String c s) || Py.contains s p).
      by rewrite Hp.
  - rewrite append_cons.
    change (Py.contains (String c (a +:+ s)) p)
      with (String.prefix p (String c (a +:+ s)) || Py.contains (a +:+ s) p).
    rewrite IH. apply orb_true_r.
Qed.

(** An occurrence of "corpus" that starts fewer than five characters
    before another one would have to overlap it, which the word does not
    allow. *)
Lemma corpus_no_overlap c (a rest : string) :
  String.prefix "corpus" (String c (a +:+ "corpus" +:+ rest)) = true →
  (5 ≤ String.length a)%nat.
Proof.
  intros E.
  destruct a as [| x1 [| x2 [| x3 [| x4 [| x5 a]]]]];
    [exfalso .. | simpl; lia];
    cbv [String.append] in E;
    repeat (rewrite prefix_cons_cons in E;
            match type of E with
            | (if Ascii.eqb ?x ?y then _ else _) = true =>
                destruct (Ascii.eqb x y) eqn:?; [| discriminate E]
            end);
    repeat match goal with
           | H : Ascii.eqb _ _ = true |- _ =>
               first [ discriminate H | clear H ]
           end.
Qed.

Lemma split_last_go_corpus (rest : string) :
  Py.contains rest "corpus" = false →
  ∀ (a : string) skip piece,
    (skip ≤ String.length a)%nat →
    Py.split_last_go "corpus" skip piece (a +:+ "corpus" +:+ rest) = rest.
Proof.
  intros Hrest. induction a as [| c a IH]; intros skip piece Hskip.
  - assert (skip = O) as -> by (simpl in Hskip; lia).
    change ("" +:+ "corpus" +:+ rest)
      with (String "c" (String "o" (String "r" (String "p" (String "u"
             (String "s" rest)))))).
    rewrite split_last_go_scan.
    assert (Hp : String.prefix "corpus" (String "c" (String "o" (String "r"
                   (String "p" (String "u" (String "s" rest)))))) = true)
      by apply (prefix_append "corpus" rest).
    rewrite Hp.
    change (Nat.pred (String.length "corpus")) with 5%nat.
    rewrite !split_last_go_skip.
    change (Py.drop (String.length "corpus") _) with rest.
    by apply split_last_go_absent.
  - rewrite append_cons. destruct skip as [| k].
    + rewrite split_last_go_scan.
      destruct (String.prefix "corpus" (String c (a +:+ "corpus" +:+ rest))) eqn:E.
      * apply IH. change (Nat.pred (String.length "corpus")) with 5%nat.
        by apply (corpus_no_overlap c a rest).
      * apply IH. lia.
    + rewrite split_last_go_skip. apply IH. simpl in Hskip. lia.
Qed.

(** X3: the key does not depend on where the corpus is installed: what
    precedes the last "corpus" of a path is dropped, so two paths with the
    same remainder after it have the same key, and when the remainder does
    not mention "music21" the key is that of the remainder alone. *)
Theorem corpusPathToKey_root_independent (a b rest : string) (number0 : option Z) :
  Py.contains rest "corpus" = false →
  corpusPathToKey (a +:+ "corpus" +:+ rest) number0
  = corpusPathToKey (b +:+ "corpus" +:+ rest) number0
  ∧ (Py.contains rest "music21" = false →
     corpusPathToKey (a +:+ "corpus" +:+ rest) number0
     = corpusPathToKey rest number0).
Proof.
  intros Hrest.
  assert (Hkey : ∀ x : string,
            (if Py.contains (x +:+ "corpus" +:+ rest) "corpus"
                || Py.contains (x +:+ "corpus" +:+ rest) "music21"
             then Py.split_last (x +:+ "corpus" +:+ rest) "corpus"
             else x +:+ "corpus" +:+ rest) = rest).
  { intros x. rewrite (contains_append x ("corpus" +:+ rest) "corpus")
      by apply (prefix_append "corpus" rest).
    simpl. unfold Py.split_last. apply split_last_go_corpus; [done | lia]. }
  unfold corpusPathToKey. rewrite !Hkey. split; [reflexivity|].
  intros Hm. by rewrite Hrest, Hm.
Qed.

Lemma corpusPathToKey_root_independent_witness :
  Py.contains "/bach/bwv66.6.mxl" "corpus" = false
  ∧ corpusPathToKey ("/usr/lib/music21/" +:+ "corpus" +:+ "/bach/bwv66.6.mxl") None
    = corpusPathToKey ("/home/me/" +:+ "corpus" +:+ "/bach/bwv66.6.mxl") None.
Proof.
  split; [reflexivity|].
  exact (proj1 (corpusPathToKey_root_independent "/usr/lib/music21/" "/home/me/"
                  "/bach/bwv66.6.mxl" None eq_refl)).
Defined.

(** ** More laws of the set algebra *)

Lemma set_operation_lookup A B operator r k :
  _apply_set_operation A (VBundle B) operator = Ok r →
  metadataEntries r !! k
  = if bool_decide (k ∈ set_getattr operator (dom (metadataEntries A))
                          (dom (metadataEntries B)))
    then (metadataEntries A ∪ metadataEntries B) !! k
    else None.
Proof.
  intros Hr. destruct (apply_set_operation_Ok A B operator) as (r' & Hr' & _ & Hm).
  rewrite Hr in Hr'. injection Hr' as <-. apply Hm.
Qed.

Lemma bool_decide_elem_of_dom (m : Entries) k :
  bool_decide (k ∈ dom m) = bool_decide (is_Some (m !! k)).
Proof. apply bool_decide_ext, elem_of_dom. Qed.

Lemma difference_lookup A B r k :
  difference A (VBundle B) = Ok r →
  metadataEntries r !! k
  = match metadataEntries B !! k with
    | Some _ => None
    | None => metadataEntries A !! k
    end.
Proof.
  intros Hr. rewrite (set_operation_lookup _ _ _ _ k Hr), lookup_prefer_self.
  simpl.
  destruct (metadataEntries A !! k) as [ea|] eqn:Ha,
           (metadataEntries B !! k) as [eb|] eqn:Hb.
  - rewrite bool_decide_eq_false_2; [done|].
    intros [_ H]%elem_of_difference. apply H, elem_of_dom. eauto.
  - rewrite bool_decide_eq_true_2; [done|].
    apply elem_of_difference. split; [apply elem_of_dom; eauto|].
    by apply not_elem_of_dom.
  - rewrite bool_decide_eq_false_2; [done|].
    intros [H _]%elem_of_difference. apply elem_of_dom in H as [? H]. congruence.
  - by destruct (bool_decide _).
Qed.

Lemma symmetric_difference_lookup A B r k :
  symmetric_difference A (VBundle B) = Ok r →
  metadataEntries r !! k
  = match metadataEntries A !! k, metadataEntries B !! k with
    | Some e, None => Some e
    | None, Some e => Some e
    | _, _ => None
    end.
Proof.
  intros Hr. rewrite (set_operation_lookup _ _ _ _ k Hr), lookup_prefer_self.
  simpl.
  destruct (metadataEntries A !! k) as [ea|] eqn:Ha,
           (metadataEntries B !! k) as [eb|] eqn:Hb.
  - rewrite bool_decide_eq_false_2; [done|].
    rewrite elem_of_union, !elem_of_difference, !elem_of_dom, Ha, Hb.
    intros [[_ H] | [_ H]]; apply H; eauto.
  - rewrite bool_decide_eq_true_2; [done|].
    rewrite elem_of_union, !elem_of_difference, !elem_of_dom, Ha, Hb.
    left. split; [eauto|]. by intros [? ?].
  - rewrite bool_decide_eq_true_2; [done|].
    rewrite elem_of_union, !elem_of_difference, !elem_of_dom, Ha, Hb.
    right. split; [eauto|]. by intros [? ?].
  - by destruct (bool_decide _).
Qed.

Lemma entries_eq_dict_eq A B :
  metadataEntries A = metadataEntries B → __eq__ A (VBundle B) = true.
Proof. intros H. unfold __eq__. by rewrite H, dict_eq_refl. Qed.

Lemma len_dom (A : MetadataBundle) :
  __len__ A = Z.of_nat (size (dom (metadataEntries A))).
Proof. unfold __len__. by rewrite size_dom. Qed.

Lemma size_split (a b : gset string) :
  (size (a ∖ b) + size (a ∩ b) = size a)%nat.
Proof.
  rewrite <- (size_union (C := gset string)) by set_solver. f_equal.
  apply set_eq. intros k. destruct (decide (k ∈ b)); set_solver.
Qed.

(** X4: the difference and the intersection with the same operand split a
    bundle: they share no key, their union is the bundle again (the very
    same entries, so [==] holds), and the counts add up. *)
Theorem difference_intersection_split (A B : MetadataBundle) :
  ∃ D I U,
    difference A (VBundle B) = Ok D
    ∧ intersection A (VBundle B) = Ok I
    ∧ union D (VBundle I) = Ok U
    ∧ isdisjoint D (VBundle I) = Ok true
    ∧ metadataEntries U = metadataEntries A
    ∧ __eq__ U (VBundle A) = true
    ∧ __len__ D = __len__ A - __len__ I.
Proof.
  destruct (apply_set_operation_Ok A B op_difference) as (D & HD & _ & _).
  destruct (apply_set_operation_Ok A B op_intersection) as (I & HI & _ & _).
  destruct (apply_set_operation_Ok D I op_union) as (U & HU & _ & _).
  exists D, I, U. repeat (split; [assumption|]).
  pose proof (apply_set_operation_dom _ _ _ _ HD) as DD.
  pose proof (apply_set_operation_dom _ _ _ _ HI) as DI.
  simpl in DD, DI.
  assert (HUA : metadataEntries U = metadataEntries A).
  { rewrite (union_entries _ _ _ HU). apply map_eq. intros k.
    rewrite lookup_prefer_self, (difference_lookup _ _ _ k HD),
            (intersection_lookup _ _ _ k HI).
    by destruct (metadataEntries A !! k), (metadataEntries B !! k). }
  split; [|split; [exact HUA|split; [by apply entries_eq_dict_eq|]]].
  - unfold isdisjoint, _apply_set_predicate. simpl. f_equal.
    apply bool_decide_eq_true. rewrite DD, DI. set_solver.
  - rewrite !len_dom, DD, DI.
    pose proof (size_split (dom (metadataEntries A)) (dom (metadataEntries B))).
    lia.
Qed.

(** X5: the symmetric difference is the union of the two differences (the
    very same entries), and it has as many entries as the union has beyond
    the intersection. *)
Theorem symmetric_difference_as_union (A B : MetadataBundle) :
  ∃ X D1 D2 U AB I,
    symmetric_difference A (VBundle B) = Ok X
    ∧ difference A (VBundle B) = Ok D1
    ∧ difference B (VBundle A) = Ok D2
    ∧ union D1 (VBundle D2) = Ok U
    ∧ union A (VBundle B) = Ok AB
    ∧ intersection A (VBundle B) = Ok I
    ∧ metadataEntries X = metadataEntries U
    ∧ __eq__ X (VBundle U) = true
    ∧ __len__ X = __len__ AB - __len__ I.
Proof.
  destruct (apply_set_operation_Ok A B op_symmetric_difference) as (X & HX & _ & _).
  destruct (apply_set_operation_Ok A B op_difference) as (D1 & HD1 & _ & _).
  destruct (apply_set_operation_Ok B A op_difference) as (D2 & HD2 & _ & _).
  destruct (apply_set_operation_Ok D1 D2 op_union) as (U & HU & _ & _).
  destruct (apply_set_operation_Ok A B op_union) as (AB & HAB & _ & _).
  destruct (apply_set_operation_Ok A B op_intersection) as (I & HI & _ & _).
  exists X, D1, D2, U, AB, I. repeat (split; [assumption|]).
  assert (HXU : metadataEntries X = metadataEntries U).
  { rewrite (union_entries _ _ _ HU). apply map_eq. intros k.
    rewrite lookup_prefer_self, (symmetric_difference_lookup _ _ _ k HX),
            (difference_lookup _ _ _ k HD1), (difference_lookup _ _ _ k HD2).
    by destruct (metadataEntries A !! k), (metadataEntries B !! k). }
  split; [exact HXU|]. split; [by apply entries_eq_dict_eq|].
  rewrite !len_dom.
  rewrite (apply_set_operation_dom _ _ _ _ HX), (apply_set_operation_dom _ _ _ _ HAB),
          (apply_set_operation_dom _ _ _ _ HI). simpl.
  set (a := dom (metadataEntries A)). set (b := dom (metadataEntries B)).
  assert (Hs : (size (a ∖ b ∪ b ∖ a) + size (a ∩ b) = size (a ∪ b))%nat).
  { rewrite <- (size_union (C := gset string)) by set_solver. f_equal.
    apply set_eq. intros k. destruct (decide (k ∈ a)), (decide (k ∈ b)); set_solver. }
  lia.
Qed.

(** X6: [isdisjoint] is symmetric, it holds exactly when the intersection
    is empty, and then the union has as many entries as the two operands
    together. *)
Theorem isdisjoint_laws (A B : MetadataBundle) :
  ∃ d I AB,
    isdisjoint A (VBundle B) = Ok d
    ∧ isdisjoint B (VBundle A) = Ok d
    ∧ intersection A (VBundle B) = Ok I
    ∧ union A (VBundle B) = Ok AB
    ∧ (d = true ↔ __len__ I = 0)
    ∧ (d = true → __len__ AB = __len__ A + __len__ B).
Proof.
  destruct (apply_set_operation_Ok A B op_intersection) as (I & HI & _ & _).
  destruct (apply_set_operation_Ok A B op_union) as (AB & HAB & _ & _).
  set (a := dom (metadataEntries A)). set (b := dom (metadataEntries B)).
  exists (bool_decide (a ## b)), I, AB.
  split; [reflexivity|]. split.
  { unfold isdisjoint, _apply_set_predicate. simpl. f_equal.
    apply bool_decide_ext. fold a b. set_solver. }
  split; [exact HI|]. split; [exact HAB|].
  assert (HlenI : __len__ I = 0 ↔ a ## b).
  { rewrite len_dom, (apply_set_operation_dom _ _ _ _ HI). simpl. fold a b.
    split.
    - intros H. assert (size (a ∩ b) = 0%nat) as H0 by lia.
      apply size_empty_inv in H0. set_solver.
    - intros H. assert (a ∩ b = ∅) as -> by set_solver.
      by rewrite size_empty. }
  split.
  - rewrite bool_decide_eq_true. symmetry. exact HlenI.
  - intros Hd%bool_decide_eq_true.
    rewrite !len_dom, (apply_set_operation_dom _ _ _ _ HAB). simpl. fold a b.
    rewrite (size_union (C := gset string)) by exact Hd. lia.
Qed.

Lemma isdisjoint_laws_witness :
  let A := Sample.bundle_of None [Sample.mxl; Sample.xml] in
  let B := Sample.bundle_of None [Sample.krn] in
  isdisjoint A (VBundle B) = Ok true
  ∧ ∃ AB, union A (VBundle B) = Ok AB ∧ __len__ AB = __len__ A + __len__ B.
Proof.
  intros A B.
  assert (Hd : isdisjoint A (VBundle B) = Ok true) by (vm_compute; reflexivity).
  split; [exact Hd|].
  destruct (isdisjoint_laws A B) as (d & I & AB & Hd' & _ & _ & HAB & _ & Hlen).
  rewrite Hd in Hd'. injection Hd' as <-.
  exists AB. split; [exact HAB | exact (Hlen eq_refl)].
Defined.

(** X7: [issubset] answers as [<=] does and [issuperset] as [>=]; a bundle
    is a subset of another exactly when its difference with it is empty,
    and exactly when its intersection with it is the bundle itself.  The
    intersection is always a subset of [self], and [self] of the union. *)
Theorem issubset_laws (A B : MetadataBundle) :
  ∃ s D I AB,
    issubset A (VBundle B) = Ok s
    ∧ __le__ A (VBundle B) = Ok s
    ∧ issuperset B (VBundle A) = Ok s
    ∧ __ge__ B (VBundle A) = Ok s
    ∧ difference A (VBundle B) = Ok D
    ∧ intersection A (VBundle B) = Ok I
    ∧ union A (VBundle B) = Ok AB
    ∧ (s = true ↔ __len__ D = 0)
    ∧ (s = true ↔ metadataEntries I = metadataEntries A)
    ∧ issubset I (VBundle A) = Ok true
    ∧ issubset A (VBundle AB) = Ok true.
Proof.
  destruct (apply_set_operation_Ok A B op_difference) as (D & HD & _ & _).
  destruct (apply_set_operation_Ok A B op_intersection) as (I & HI & _ & _).
  destruct (apply_set_operation_Ok A B op_union) as (AB & HAB & _ & _).
  set (a := dom (metadataEntries A)). set (b := dom (metadataEntries B)).
  exists (bool_decide (a ⊆ b)), D, I, AB.
  repeat (split; [first [reflexivity | assumption]|]).
  pose proof (apply_set_operation_dom _ _ _ _ HD) as DD.
  pose proof (apply_set_operation_dom _ _ _ _ HI) as DI.
  pose proof (apply_set_operation_dom _ _ _ _ HAB) as DAB.
  simpl in DD, DI, DAB. fold a b in DD, DI, DAB.
  split; [|split; [|split]].
  - rewrite bool_decide_eq_true, len_dom, DD. split.
    + intros H. assert (a ∖ b = ∅) as -> by set_solver. by rewrite size_empty.
    + intros H. assert (size (a ∖ b) = 0%nat) as H0 by lia.
      apply size_empty_inv in H0. intros k Hk.
      destruct (decide (k ∈ b)); [done|]. set_solver.
  - rewrite bool_decide_eq_true. split.
    + intros H. apply map_eq. intros k.
      rewrite (intersection_lookup _ _ _ k HI).
      destruct (metadataEntries A !! k) as [e|] eqn:Ha;
        [|by destruct (metadataEntries B !! k)].
      assert (k ∈ b) as [e' ->]%elem_of_dom; [|done].
      apply H, elem_of_dom. eauto.
    + intros H k Hk. assert (k ∈ dom (metadataEntries I)) as HkI
        by (rewrite H; exact Hk).
      rewrite DI in HkI. set_solver.
  - unfold issubset, _apply_set_predicate. simpl. f_equal.
    apply bool_decide_eq_true. rewrite DI. fold a. set_solver.
  - unfold issubset, _apply_set_predicate. simpl. f_equal.
    apply bool_decide_eq_true. rewrite DAB. fold a. set_solver.
Qed.

(** X8: [==] between bundles is reflexive, symmetric and transitive and
    does not look at the names; equal bundles are [<=] and [>=] each other
    and neither [<] nor [>]. *)
Theorem eq_laws (A B C : MetadataBundle) :
  __eq__ A (VBundle A) = true
  ∧ __eq__ A (VBundle B) = __eq__ B (VBundle A)
  ∧ (__eq__ A (VBundle B) = true → __eq__ B (VBundle C) = true →
     __eq__ A (VBundle C) = true)
  ∧ (∀ n, __eq__ {| name := n; metadataEntries := metadataEntries A |} (VBundle A)
          = true)
  ∧ (__eq__ A (VBundle B) = true →
     __le__ A (VBundle B) = Ok true ∧ __ge__ A (VBundle B) = Ok true
     ∧ __lt__ A (VBundle B) = Ok false ∧ __gt__ A (VBundle B) = Ok false).
Proof.
  assert (Hcase : ∀ X Y, __eq__ X (VBundle Y)
                         = dict_eq (metadataEntries X) (metadataEntries Y)).
  { intros X Y. unfold __eq__. by destruct (dict_eq _ _). }
  rewrite !Hcase. split; [apply dict_eq_refl|]. split.
  { unfold dict_eq. apply bool_decide_ext. split; intros H; by symmetry. }
  split.
  { unfold dict_eq. rewrite !bool_decide_eq_true. intros -> ->. reflexivity. }
  split.
  { intros n. rewrite Hcase. apply dict_eq_refl. }
  intros Heq%dict_eq_dom.
  unfold __le__, __ge__, __lt__, __gt__, _apply_set_predicate. simpl.
  rewrite Heq. repeat split; f_equal.
  - by apply bool_decide_eq_true.
  - by apply bool_decide_eq_true.
  - apply bool_decide_eq_false. by intros [_ H].
  - apply bool_decide_eq_false. by intros [_ H].
Qed.

Lemma eq_laws_witness :
  let A := Sample.bundle_of None [Sample.mxl; Sample.krn] in
  let B := Sample.bundle_of (Some "core") [Sample.krn; Sample.mxl] in
  __eq__ A (VBundle B) = true
  ∧ __le__ A (VBundle B) = Ok true
  ∧ __lt__ A (VBundle B) = Ok false.
Proof.
  intros A B.
  assert (He : __eq__ A (VBundle B) = true) by (vm_compute; reflexivity).
  split; [exact He|].
  destruct (eq_laws A B A) as (_ & _ & _ & _ & H).
  destruct (H He) as (Hle & _ & Hlt & _). split; [exact Hle | exact Hlt].
Defined.

(** ** More on search *)

Lemma bundle_eq (A B : MetadataBundle) :
  name A = name B →
  (∀ k, metadataEntries A !! k = metadataEntries B !! k) →
  A = B.
Proof.
  destruct A, B; simpl; intros -> H. f_equal. by apply map_eq.
Qed.

(** X9: searching a search result again with the same arguments changes
    nothing, and two searches can be made in either order. *)
Theorem search_idempotent_commutes (self : MetadataBundle)
    (q1 q2 : string) (f1 f2 : option string) (x1 x2 : option (list string)) :
  search (search self q1 f1 x1) q1 f1 x1 = search self q1 f1 x1
  ∧ search (search self q1 f1 x1) q2 f2 x2
    = search (search self q2 f2 x2) q1 f1 x1.
Proof.
  split.
  all: match goal with |- ?X = ?Y => refine (bundle_eq X Y eq_refl _) end.
  all: intros k; rewrite !search_lookup;
    destruct (metadataEntries self !! k) as [e|]; simpl; try reflexivity.
  - destruct (search_keeps q1 f1 x1 e) eqn:H1; simpl; [by rewrite H1 | done].
  - destruct (search_keeps q1 f1 x1 e) eqn:H1,
             (search_keeps q2 f2 x2 e) eqn:H2; simpl;
      rewrite ?H1, ?H2; reflexivity.
Qed.

(** X10: a search result is a subset of the searched bundle and holds its
    entries unchanged; it has no stub entry; a filter can only narrow the
    result of the unfiltered search; and the empty filter, unlike no
    filter, lets nothing through. *)
Theorem search_narrows (self : MetadataBundle) (query : string)
    (field : option string) (fileExtensions : option (list string)) :
  let r := search self query field fileExtensions in
  issubset r (VBundle self) = Ok true
  ∧ (∀ k e, metadataEntries r !! k = Some e →
            metadataEntries self !! k = Some e ∧ metadataPayload e ≠ None)
  ∧ issubset r (VBundle (search self query field None)) = Ok true
  ∧ metadataEntries (search self query field (Some [])) = ∅
  ∧ __len__ r ≤ __len__ self.
Proof.
  intros r.
  assert (Hin : ∀ k e, metadataEntries r !! k = Some e →
            metadataEntries self !! k = Some e
            ∧ search_keeps query field fileExtensions e = true).
  { intros k e. unfold r. rewrite search_lookup.
    destruct (metadataEntries self !! k) as [e'|]; simpl; [|done].
    destruct (search_keeps query field fileExtensions e') eqn:Hk; [|done].
    by intros [= <-]. }
  assert (Hsub : dom (metadataEntries r) ⊆ dom (metadataEntries self)).
  { intros k [e He]%elem_of_dom. apply elem_of_dom.
    exists e. by apply Hin. }
  split; [|split; [|split; [|split]]].
  - unfold issubset, _apply_set_predicate. simpl. f_equal.
    by apply bool_decide_eq_true.
  - intros k e He. destruct (Hin k e He) as [Hs Hk]. split; [exact Hs|].
    unfold search_keeps in Hk. by destruct (metadataPayload e).
  - unfold issubset, _apply_set_predicate. cbv zeta. f_equal.
    apply bool_decide_eq_true. intros k [e He]%elem_of_dom.
    destruct (Hin k e He) as [Hs Hk]. apply elem_of_dom. exists e.
    rewrite search_lookup, Hs. simpl.
    unfold search_keeps in *. destruct (metadataPayload e); [|done].
    apply andb_prop in Hk as [-> _]. reflexivity.
  - apply map_eq. intros k. rewrite search_lookup, lookup_empty.
    destruct (metadataEntries self !! k) as [e|]; simpl; [|done].
    unfold search_keeps. destruct (metadataPayload e); [|done].
    simpl. by rewrite andb_false_r.
  - rewrite !len_dom. apply inj_le. by apply subseteq_size.
Qed.

(** ** The key invariant *)

Lemma store_entries_lookup (es : list MetadataEntry) : ∀ (entries : Entries) k e,
  store_entries entries es !! k = Some e →
  entries !! k = Some e ∨ (e ∈ es ∧ k = corpusPath e).
Proof.
  induction es as [| x es IH]; intros entries k e; simpl; [by left|].
  intros [H | [H ->]]%IH.
  - destruct (decide (k = corpusPath x)) as [-> | Hne].
    + rewrite lookup_insert_eq in H. injection H as <-. right.
      split; [by left | done].
    + rewrite lookup_insert_ne in H by done. by left.
  - right. split; [by right | done].
Qed.

Lemma foldl_delete_lookup (keys : list string) : ∀ (m : Entries) k,
  foldl (fun m key => delete key m) m keys !! k
  = if bool_decide (k ∈ keys) then None else m !! k.
Proof.
  induction keys as [| x keys IH]; intros m k; cbn [foldl].
  - rewrite bool_decide_eq_false_2; [done | apply not_elem_of_nil].
  - rewrite IH. destruct (decide (k ∈ keys)) as [Hk | Hk].
    + rewrite (bool_decide_eq_true_2 (k ∈ keys)) by done.
      rewrite (bool_decide_eq_true_2 (k ∈ x :: keys)); [done | by right].
    + rewrite (bool_decide_eq_false_2 (k ∈ keys)) by done.
      destruct (decide (k = x)) as [-> | Hne].
      * rewrite lookup_delete_eq.
        rewrite (bool_decide_eq_true_2 (x ∈ x :: keys)); [done | by left].
      * rewrite lookup_delete_ne by done.
        rewrite (bool_decide_eq_false_2 (k ∈ x :: keys)); [done|].
        by intros [? | ?]%elem_of_cons.
Qed.

(** X11: canonical keys are kept: when every key of the operands is the
    canonical key of its entry, the same holds for the result of every set
    operation, of [search] and of [validate]; storing job results only
    adds canonical keys. *)
Theorem canonical_preserved (env : Env) (fs : FileSystem)
    (A B : MetadataBundle) :
  canonical (metadataEntries A) →
  canonical (metadataEntries B) →
  (∀ operator r, set_method operator A (VBundle B) = Ok r →
                 canonical (metadataEntries r))
  ∧ (∀ query field fileExtensions,
       canonical (metadataEntries (search A query field fileExtensions)))
  ∧ canonical (metadataEntries (validate env fs A).1)
  ∧ (∀ es, canonical (store_entries (metadataEntries A) es)).
Proof.
  intros HA HB. split; [|split; [|split]].
  - intros operator r Hr k e He. rewrite set_method_dispatch in Hr.
    rewrite (set_operation_lookup _ _ _ _ k Hr), lookup_prefer_self in He.
    destruct (bool_decide _); [|done].
    destruct (metadataEntries A !! k) as [ea|] eqn:Ha.
    + injection He as <-. by apply HA.
    + by apply HB.
  - intros query field fileExtensions k e. rewrite search_lookup.
    destruct (metadataEntries A !! k) as [e'|] eqn:Ha; simpl; [|done].
    destruct (search_keeps _ _ _ e'); [|done]. intros [= <-]. by apply HA.
  - intros k e. unfold validate. simpl. rewrite foldl_delete_lookup.
    destruct (bool_decide _); [done|]. apply HA.
  - intros es k e [H | [_ H]]%store_entries_lookup; [by apply HA | exact H].
Qed.

Lemma canonical_bundle_of nm es :
  canonical (metadataEntries (Sample.bundle_of nm es)).
Proof.
  intros k e H. unfold Sample.bundle_of in H. simpl in H.
  apply elem_of_list_to_map_2, list_elem_of_fmap in H as (x & [= -> ->] & _).
  reflexivity.
Qed.

Lemma canonical_preserved_witness :
  let A := Sample.bundle_of None [Sample.mxl; Sample.xml] in
  let B := Sample.bundle_of None [Sample.krn] in
  canonical (metadataEntries A) ∧ canonical (metadataEntries B)
  ∧ canonical (metadataEntries (search A "bach" None None)).
Proof.
  intros A B.
  assert (HA : canonical (metadataEntries A)) by apply canonical_bundle_of.
  assert (HB : canonical (metadataEntries B)) by apply canonical_bundle_of.
  split; [exact HA|]. split; [exact HB|].
  destruct (canonical_preserved Sample.env ∅ A B HA HB) as (_ & Hs & _).
  apply Hs.
Defined.

(** ** More on the validator *)

Section Validator.

Variables (env : Env) (fs : FileSystem).

Lemma validate_step_cases key e inv (seen : gset string) :
  validate_step env fs key e (inv, seen)
  = if bool_decide (sourcePath e ∈ seen) then (inv, seen)
    else (if orphan env fs e then inv ++ [key] else inv,
          seen ∪ {[sourcePath e]}).
Proof.
  unfold validate_step, orphan, located.
  destruct (bool_decide (sourcePath e ∈ seen)); [reflexivity|].
  destruct (Py.startswith (sourcePath e) "http:"); [reflexivity|]. simpl.
  by destruct (negb (exists_ env fs _)).
Qed.

(** The invalidated keys are picked, in order, among the keys met. *)
Lemma validate_foldl_sublist items : ∀ st,
  ∃ picked,
    (foldl (fun st kv => validate_step env fs kv.1 kv.2 st) st items).1
    = st.1 ++ picked
    ∧ picked `sublist_of` items.*1.
Proof.
  induction items as [| [key e] items IH]; intros [inv seen]; cbn [foldl].
  - exists []. split; [by rewrite app_nil_r | constructor].
  - cbn [fst snd]. rewrite validate_step_cases.
    destruct (bool_decide (sourcePath e ∈ seen)).
    + destruct (IH (inv, seen)) as (picked & -> & Hs).
      exists picked. split; [done | by apply sublist_cons].
    + destruct (orphan env fs e).
      * destruct (IH (inv ++ [key], seen ∪ {[sourcePath e]})) as (picked & -> & Hs).
        exists (key :: picked). simpl. split; [by rewrite <- app_assoc|].
        by apply sublist_skip.
      * destruct (IH (inv, seen ∪ {[sourcePath e]})) as (picked & -> & Hs).
        exists picked. split; [done | by apply sublist_cons].
Qed.

(** With pairwise different source paths no entry is skipped, so every
    orphan met is invalidated. *)
Lemma validate_foldl_complete items : ∀ st k e,
  NoDup ((fun kv : string * MetadataEntry => sourcePath kv.2) <$> items) →
  (∀ kv, kv ∈ items → sourcePath kv.2 ∉ st.2) →
  (k, e) ∈ items → orphan env fs e = true →
  k ∈ (foldl (fun st kv => validate_step env fs kv.1 kv.2 st) st items).1.
Proof.
  induction items as [| [key e0] items IH]; intros [inv seen] k e Hnd Hseen Hin Ho.
  { by apply elem_of_nil in Hin. }
  cbn [foldl fst snd]. rewrite validate_step_cases.
  rewrite fmap_cons in Hnd. apply NoDup_cons in Hnd as [Hfresh Hnd].
  rewrite bool_decide_eq_false_2 by (apply (Hseen (key, e0)); by left).
  apply elem_of_cons in Hin as [[= -> ->] | Hin].
  - rewrite Ho.
    destruct (validate_foldl_sublist items (inv ++ [key], seen ∪ {[sourcePath e0]}))
      as (picked & -> & _).
    simpl. rewrite !elem_of_app. left; right. by left.
  - eapply IH; [exact Hnd | | exact Hin | exact Ho].
    intros kv Hkv. simpl. intros [H | H%elem_of_singleton]%elem_of_union.
    + apply (Hseen kv); [by right | exact H].
    + apply Hfresh. apply list_elem_of_fmap. exists kv. split; [|exact Hkv].
      simpl. by rewrite H.
Qed.

End Validator.

Lemma size_foldl_delete (keys : list string) : ∀ (m : Entries),
  NoDup keys → (∀ k, k ∈ keys → is_Some (m !! k)) →
  (size (foldl (fun m key => delete key m) m keys) + length keys = size m)%nat.
Proof.
  induction keys as [| x keys IH]; intros m Hnd Hin; cbn [foldl length]; [lia|].
  apply NoDup_cons in Hnd as [Hx Hnd].
  assert (Hrest : ∀ k, k ∈ keys → is_Some (delete x m !! k)).
  { intros k Hk. rewrite lookup_delete_ne; [apply Hin; by right|].
    intros ->. by apply Hx. }
  pose proof (IH (delete x m) Hnd Hrest) as E.
  destruct (Hin x) as [e He]; [by left|].
  rewrite map_size_delete_Some in E by eauto.
  assert (size m ≠ 0%nat); [|lia].
  intros H0%map_size_empty_inv. rewrite H0 in He. by rewrite lookup_empty in He.
Qed.

(** X12: [validate] only removes entries: what is left is held unchanged,
    the name is kept, every entry that is an "http:" source or whose
    located file exists is kept, an entry is removed only if it is an
    orphan, and the returned count is the number of entries removed. *)
Theorem validate_only_removes_orphans (env : Env) (fs : FileSystem)
    (self : MetadataBundle) :
  let r := (validate env fs self).1 in
  name r = name self
  ∧ (∀ k e, metadataEntries r !! k = Some e → metadataEntries self !! k = Some e)
  ∧ (∀ k e, metadataEntries self !! k = Some e → orphan env fs e = false →
            metadataEntries r !! k = Some e)
  ∧ (validate env fs self).2 = __len__ self - __len__ r.
Proof.
  intros r. unfold r, validate. cbn [fst snd name metadataEntries].
  set (keys := (validate_loop env fs (map_to_list (metadataEntries self))).1).
  assert (Hsound : ∀ k, k ∈ keys →
            ∃ e, metadataEntries self !! k = Some e ∧ orphan env fs e = true).
  { intros k Hk. apply validate_loop_sound in Hk as [Hk | (e & Hin & Hh & Hx)].
    - by apply elem_of_nil in Hk.
    - exists e. split; [by apply elem_of_map_to_list|].
      unfold orphan, located. by rewrite Hh, Hx. }
  assert (Hnd : NoDup keys).
  { destruct (validate_foldl_sublist env fs (map_to_list (metadataEntries self))
                ([], ∅)) as (picked & Hp & Hs).
    unfold keys, validate_loop. rewrite Hp. simpl.
    exact (sublist_NoDup _ _ (NoDup_fst_map_to_list (metadataEntries self)) Hs). }
  split; [reflexivity|]. split; [|split].
  - intros k e. rewrite foldl_delete_lookup. by destruct (bool_decide _).
  - intros k e He Ho. rewrite foldl_delete_lookup.
    rewrite bool_decide_eq_false_2; [exact He|].
    intros (e' & He' & Ho')%Hsound. congruence.
  - unfold __len__. cbn [metadataEntries].
    pose proof (size_foldl_delete keys (metadataEntries self) Hnd) as Hsz.
    rewrite <- Hsz; [lia|].
    intros k (e & He & _)%Hsound. eauto.
Qed.

Lemma validate_only_removes_orphans_witness :
  let self := Sample.bundle_of None [Sample.mxl; Sample.opus1] in
  let fs := Sample.disk 100 in
  metadataEntries self !! corpusPath Sample.mxl = Some Sample.mxl
  ∧ orphan Sample.env fs Sample.mxl = false
  ∧ metadataEntries (validate Sample.env fs self).1 !! corpusPath Sample.mxl
    = Some Sample.mxl.
Proof.
  intros self fs.
  assert (H1 : metadataEntries self !! corpusPath Sample.mxl = Some Sample.mxl)
    by (vm_compute; reflexivity).
  assert (H2 : orphan Sample.env fs Sample.mxl = false) by (vm_compute; reflexivity).
  split; [exact H1|]. split; [exact H2|].
  destruct (validate_only_removes_orphans Sample.env fs self) as (_ & _ & Hkeep & _).
  exact (Hkeep _ _ H1 H2).
Defined.

(** X13: when no two entries share a source path, [validate] removes
    exactly the orphans: an entry is left if and only if it was there and
    is an "http:" source or has its located file on disk. *)
Theorem validate_exact_on_distinct_sources (env : Env) (fs : FileSystem)
    (self : MetadataBundle) :
  distinct_sources (metadataEntries self) →
  ∀ k e,
    metadataEntries (validate env fs self).1 !! k = Some e
    ↔ metadataEntries self !! k = Some e ∧ orphan env fs e = false.
Proof.
  intros Hdist k e. unfold validate. cbn [fst metadataEntries].
  rewrite foldl_delete_lookup.
  set (keys := (validate_loop env fs (map_to_list (metadataEntries self))).1).
  assert (Hnd : NoDup ((fun kv : string * MetadataEntry => sourcePath kv.2)
                         <$> map_to_list (metadataEntries self))).
  { apply NoDup_fmap_2_strong; [|apply NoDup_map_to_list].
    intros [k1 e1] [k2 e2] H1%elem_of_map_to_list H2%elem_of_map_to_list Hsp.
    simpl in Hsp. assert (k1 = k2) as -> by (eapply Hdist; eauto).
    congruence. }
  split.
  - destruct (bool_decide (k ∈ keys)) eqn:Hk; [done|].
    intros He. split; [exact He|].
    destruct (orphan env fs e) eqn:Ho; [|reflexivity].
    apply bool_decide_eq_false in Hk. exfalso. apply Hk.
    unfold keys, validate_loop.
    eapply validate_foldl_complete; [exact Hnd | | | exact Ho].
    + intros kv _. simpl. apply not_elem_of_empty.
    + by apply elem_of_map_to_list.
  - intros [He Ho]. rewrite bool_decide_eq_false_2; [exact He|].
    intros Hk. apply validate_loop_sound in Hk as [Hk | (e' & Hin & Hh & Hx)].
    + by apply elem_of_nil in Hk.
    + apply elem_of_map_to_list in Hin.
      assert (e' = e) as -> by congruence.
      unfold orphan, located in Ho. by rewrite Hh, Hx in Ho.
Qed.

Lemma validate_exact_on_distinct_sources_witness :
  let self := Sample.bundle_of None [Sample.mxl; Sample.opus1] in
  distinct_sources (metadataEntries self)
  ∧ metadataEntries (validate Sample.env (Sample.disk 100) self).1
      !! corpusPath Sample.mxl = Some Sample.mxl
  ∧ metadataEntries (validate Sample.env (Sample.disk 100) self).1
      !! corpusPath Sample.opus1 ≠ Some Sample.opus1.
Proof.
  intros self.
  assert (Hd : distinct_sources (metadataEntries self)).
  { intros k1 k2 e1 e2 H1 H2 Hsp.
    apply elem_of_list_to_map_2 in H1. apply elem_of_list_to_map_2 in H2.
    cbn [fmap list_fmap] in H1, H2.
    repeat match goal with
    | H : _ ∈ _ :: _ |- _ => apply elem_of_cons in H as [H | H]
    | H : _ ∈ [] |- _ => apply elem_of_nil in H; destruct H
    end; simplify_eq; try reflexivity; discriminate Hsp. }
  split; [exact Hd|].
  pose proof (validate_exact_on_distinct_sources Sample.env (Sample.disk 100)
                self Hd) as Hex.
  split.
  - apply Hex. split; vm_compute; reflexivity.
  - intros H. apply Hex in H as [_ Ho]. vm_compute in Ho. discriminate Ho.
Defined.

(** ** More on the scheduling phase *)

Section SchedulingMore.

Variables (env : Env) (fs : FileSystem) (self : MetadataBundle).
Variables (useCorpus : bool) (mtime : Z).

(** What one turn of the loop does, whether or not it raises. *)
Lemma schedule_step_outcome st p :
  match schedule_step env fs self useCorpus mtime st p with
  | Ok st' =>
      (consults_ctime env self p = true →
       is_Some (fs !! abspath env (normalized env p)))
      ∧ ((jobs st' = jobs st
          ∧ currentJobNumber st' = currentJobNumber st
          ∧ skippedJobsCount st' = skippedJobsCount st + 1
          ∧ cache_hit env fs self mtime (normalized env p) = true)
         ∨ (jobs st' = jobs st ++
                       [{| job_filePath := normalized env p;
                           jobNumber := currentJobNumber st + 1;
                           job_useCorpus := useCorpus |}]
            ∧ currentJobNumber st' = currentJobNumber st + 1
            ∧ skippedJobsCount st' = skippedJobsCount st
            ∧ cache_hit env fs self mtime (normalized env p) = false))
  | Raise e =>
      consults_ctime env self p = true
      ∧ fs !! abspath env (normalized env p) = None
      ∧ e = OSError (normalized env p)
  end.
Proof.
  unfold schedule_step, cache_hit, consults_ctime.
  change (if negb (Py.startswith p "http") then abspath env p else p)
    with (normalized env p).
  cbv zeta.
  destruct (bool_decide _ && negb _)%bool eqn:Hc.
  - unfold getctime.
    destruct (fs !! abspath env (normalized env p)) as [f|] eqn:Hf; simpl.
    + destruct (ctime f <? mtime); simpl; (split; [eauto|]); [left | right]; done.
    + done.
  - simpl. split; [done|]. right. done.
Qed.

(** The loop: the new jobs are numbered on from the counter, each is for
    the normalized form of an input path, in input order, and every input
    path is either scheduled or counted as skipped. *)
Lemma schedule_loop_outcome paths : ∀ st,
  match schedule_loop env fs self useCorpus mtime st paths with
  | Ok st' =>
      (∀ p, p ∈ paths → consults_ctime env self p = true →
            is_Some (fs !! abspath env (normalized env p)))
      ∧ ∃ new,
          jobs st' = jobs st ++ new
          ∧ currentJobNumber st' = currentJobNumber st + Z.of_nat (length new)
          ∧ (Z.of_nat (length new) + (skippedJobsCount st' - skippedJobsCount st)
             = Z.of_nat (length paths))
          ∧ (∀ i j, new !! i = Some j →
                    jobNumber j = currentJobNumber st + Z.of_nat i + 1
                    ∧ job_useCorpus j = useCorpus)
          ∧ job_filePath <$> new
            = normalized env <$>
                filter (fun p => cache_hit env fs self mtime (normalized env p) = false)
                       paths
  | Raise e =>
      ∃ p, p ∈ paths
           ∧ consults_ctime env self p = true
           ∧ fs !! abspath env (normalized env p) = None
           ∧ e = OSError (normalized env p)
  end.
Proof.
  induction paths as [| p paths IH]; intros st; cbn [schedule_loop].
  - split; [intros p Hp; by apply elem_of_nil in Hp|].
    exists []. rewrite app_nil_r. repeat split; try done; simpl; lia.
  - pose proof (schedule_step_outcome st p) as Hstep.
    destruct (schedule_step env fs self useCorpus mtime st p) as [st1 | e]; simpl.
    2:{ destruct Hstep as (? & ? & ?). exists p. split; [by left | done]. }
    destruct Hstep as [Hfile Hstep].
    specialize (IH st1).
    destruct (schedule_loop env fs self useCorpus mtime st1 paths) as [st' | e].
    2:{ destruct IH as (q & Hq & ?). exists q. split; [by right | done]. }
    destruct IH as (Hfiles & new & Hjobs & Hnum & Hcount & Hnew & Hpaths).
    split.
    { intros q [-> | Hq]%elem_of_cons; [exact Hfile | by apply Hfiles]. }
    destruct Hstep as [(Hj & Hn & Hs & Hhit) | (Hj & Hn & Hs & Hhit)].
    + exists new. rewrite Hjobs, Hj, Hnum, Hn.
      rewrite filter_cons_False by (rewrite Hhit; done).
      split; [done|]. split; [done|]. split; [simpl; lia|].
      split; [|done]. intros i j H. rewrite <- Hn. by apply Hnew.
    + exists ({| job_filePath := normalized env p;
                 jobNumber := currentJobNumber st + 1;
                 job_useCorpus := useCorpus |} :: new).
      rewrite Hjobs, Hj, Hnum, Hn, <- app_assoc.
      rewrite filter_cons_True by done.
      split; [done|]. split; [simpl; lia|]. split; [simpl; lia|].
      split; [|rewrite !fmap_cons, Hpaths; reflexivity].
      intros [| i] j H; simpl in H.
      * injection H as <-. simpl. split; [lia | done].
      * apply Hnew in H as [H1 H2]. split; [lia | done].
Qed.

End SchedulingMore.

Lemma addFromPaths_jobs_outcome env fs now self paths useCorpus :
  ∃ mtime,
    metadataBundleModificationTime env fs now self = Ok mtime
    ∧ match addFromPaths_jobs env fs now self paths useCorpus with
      | Ok js =>
          (∀ p, p ∈ paths → consults_ctime env self p = true →
                is_Some (fs !! abspath env (normalized env p)))
          ∧ (∀ i j, js !! i = Some j →
                    jobNumber j = Z.of_nat i + 1 ∧ job_useCorpus j = useCorpus)
          ∧ job_filePath <$> js
            = normalized env <$>
                filter (fun p => cache_hit env fs self mtime (normalized env p) = false)
                       paths
      | Raise e =>
          ∃ p, p ∈ paths
               ∧ consults_ctime env self p = true
               ∧ fs !! abspath env (normalized env p) = None
               ∧ e = OSError (normalized env p)
      end.
Proof.
  destruct (metadataBundleModificationTime_Ok env fs now self) as (mtime & Hm & _).
  exists mtime. split; [exact Hm|].
  unfold addFromPaths_jobs. rewrite Hm. simpl.
  pose proof (schedule_loop_outcome env fs self useCorpus mtime paths
                {| jobs := []; currentJobNumber := 0; skippedJobsCount := 0 |})
    as Hloop.
  destruct (schedule_loop _ _ _ _ _ _ _) as [st' | e]; simpl; [|exact Hloop].
  destruct Hloop as (Hfiles & new & Hjobs & _ & _ & Hnew & Hpaths).
  simpl in Hjobs, Hnew. rewrite Hjobs.
  split; [exact Hfiles|]. split; [|exact Hpaths].
  intros i j H. apply Hnew in H as [H1 H2]. split; [lia | done].
Qed.






Lemma filter_all {A} (P : A → Prop) `{!∀ x, Decision (P x)} (l : list A) :
  (∀ x, x ∈ l → P x) → filter P l = l.
Proof.
  induction l as [| x l IH]; intros Hall; [reflexivity|].
  rewrite filter_cons_True by (apply Hall; by left).
  f_equal. apply IH. intros y Hy. apply Hall. by right.
Qed.

Lemma cache_hit_consults env fs self mtime p :
  consults_ctime env self p = false →
  cache_hit env fs self mtime (normalized env p) = false.
Proof. unfold cache_hit, consults_ctime. cbv zeta. by intros ->. Qed.

Lemma jobs_determined (useCorpus : bool) (js1 js2 : list MetadataCachingJob) :
  job_filePath <$> js1 = job_filePath <$> js2 →
  (∀ i j, js1 !! i = Some j →
          jobNumber j = Z.of_nat i + 1 ∧ job_useCorpus j = useCorpus) →
  (∀ i j, js2 !! i = Some j →
          jobNumber j = Z.of_nat i + 1 ∧ job_useCorpus j = useCorpus) →
  js1 = js2.
Proof.
  intros Hp Hn1 Hn2. apply list_eq. intros i.
  assert (Hlen : length js1 = length js2).
  { rewrite <- (length_fmap job_filePath js1), Hp. apply length_fmap. }
  destruct (js1 !! i) as [j1|] eqn:E1, (js2 !! i) as [j2|] eqn:E2.
  - f_equal. destruct (Hn1 _ _ E1) as [A1 B1], (Hn2 _ _ E2) as [A2 B2].
    assert (job_filePath j1 = job_filePath j2) as C.
    { assert ((job_filePath <$> js1) !! i = (job_filePath <$> js2) !! i) as Hi
        by (by rewrite Hp).
      rewrite !list_lookup_fmap, E1, E2 in Hi. by injection Hi. }
    destruct j1, j2; simpl in *; congruence.
  - apply lookup_lt_Some in E1. apply lookup_ge_None in E2. lia.
  - apply lookup_lt_Some in E2. apply lookup_ge_None in E1. lia.
  - reflexivity.
Qed.

(** With nothing to consult, the job list is the numbered list of all the
    normalized paths, whatever is on disk. *)
Lemma addFromPaths_jobs_all env fs now self paths useCorpus :
  (∀ p, p ∈ paths → consults_ctime env self p = false) →
  ∃ js, addFromPaths_jobs env fs now self paths useCorpus = Ok js
        ∧ job_filePath <$> js = normalized env <$> paths
        ∧ ∀ i j, js !! i = Some j →
                 jobNumber j = Z.of_nat i + 1 ∧ job_useCorpus j = useCorpus.
Proof.
  intros Hb.
  destruct (addFromPaths_jobs_outcome env fs now self paths useCorpus)
    as (mtime & _ & H).
  destruct (addFromPaths_jobs env fs now self paths useCorpus) as [js | e].
  - destruct H as (_ & Hnum & Hpaths). exists js. split; [done|].
    split; [|exact Hnum]. rewrite Hpaths. f_equal. apply filter_all.
    intros p Hp. apply cache_hit_consults. by apply Hb.
  - destruct H as (p & Hp & Hc & _). rewrite (Hb p Hp) in Hc. discriminate Hc.
Qed.


(** X14: the jobs handed to the job processor are numbered 1, 2, 3, ... in
    order and carry the caller's [useCorpus]; there is one job, in input
    order, for the normalized form of each input path that is not a cache
    hit, and none for the others. *)
Theorem addFromPaths_jobs_numbered (env : Env) (fs : FileSystem) (now : Z)
    (self : MetadataBundle) (paths : list string) (useCorpus : bool)
    (js : list MetadataCachingJob) :
  addFromPaths_jobs env fs now self paths useCorpus = Ok js →
  ∃ mtime,
    metadataBundleModificationTime env fs now self = Ok mtime
    ∧ (∀ i j, js !! i = Some j →
              jobNumber j = Z.of_nat i + 1 ∧ job_useCorpus j = useCorpus)
    ∧ job_filePath <$> js
      = normalized env <$>
          filter (fun p => cache_hit env fs self mtime (normalized env p) = false)
                 paths
    ∧ (length js ≤ length paths)%nat.
Proof.
  intros Hjs.
  destruct (addFromPaths_jobs_outcome env fs now self paths useCorpus)
    as (mtime & Hm & H).
  rewrite Hjs in H. destruct H as (_ & Hnum & Hpaths).
  exists mtime. split; [exact Hm|]. split; [exact Hnum|]. split; [exact Hpaths|].
  rewrite <- (length_fmap job_filePath), Hpaths, length_fmap.
  apply length_filter.
Qed.

Lemma addFromPaths_jobs_numbered_witness :
  addFromPaths_jobs Sample.env (Sample.disk 100) 500 Sample.core
    [Sample.mxl_path; "http://example.org/a.xml"] true
  = Ok [{| job_filePath := Sample.mxl_path; jobNumber := 1; job_useCorpus := true |};
        {| job_filePath := "http://example.org/a.xml"; jobNumber := 2;
           job_useCorpus := true |}]
  ∧ ∃ mtime,
      metadataBundleModificationTime Sample.env (Sample.disk 100) 500 Sample.core
      = Ok mtime.
Proof.
  assert (H : addFromPaths_jobs Sample.env (Sample.disk 100) 500 Sample.core
                [Sample.mxl_path; "http://example.org/a.xml"] true
              = Ok [{| job_filePath := Sample.mxl_path; jobNumber := 1;
                       job_useCorpus := true |};
                    {| job_filePath := "http://example.org/a.xml"; jobNumber := 2;
                       job_useCorpus := true |}])
    by (vm_compute; reflexivity).
  split; [exact H|].
  destruct (addFromPaths_jobs_numbered _ _ _ _ _ _ _ H) as (mtime & Hm & _).
  by exists mtime.
Defined.

(** X15: the scheduling phase raises exactly when some input path has a
    cached, non-network key and no file on disk; what it raises is the
    [OSError] of [getctime] for such a path. *)
Theorem addFromPaths_jobs_missing_source (env : Env) (fs : FileSystem) (now : Z)
    (self : MetadataBundle) (paths : list string) (useCorpus : bool) :
  match addFromPaths_jobs env fs now self paths useCorpus with
  | Ok _ =>
      ∀ p, p ∈ paths → consults_ctime env self p = true →
           is_Some (fs !! abspath env (normalized env p))
  | Raise e =>
      ∃ p, p ∈ paths
           ∧ consults_ctime env self p = true
           ∧ fs !! abspath env (normalized env p) = None
           ∧ e = OSError (normalized env p)
  end.
Proof.
  destruct (addFromPaths_jobs_outcome env fs now self paths useCorpus)
    as (mtime & _ & H).
  destruct (addFromPaths_jobs _ _ _ _ _ _); [by destruct H | exact H].
Qed.

(** X16: when no input path has a cached, non-network key (as for an
    empty bundle) there is one job per input path, in input order, numbered
    from 1, and the job list is the same whatever is on disk. *)
Theorem addFromPaths_jobs_uncached (env : Env) (now : Z)
    (self : MetadataBundle) (paths : list string) (useCorpus : bool) :
  (∀ p, p ∈ paths → consults_ctime env self p = false) →
  ∃ js,
    (∀ fs, addFromPaths_jobs env fs now self paths useCorpus = Ok js)
    ∧ job_filePath <$> js = normalized env <$> paths
    ∧ (∀ i j, js !! i = Some j →
              jobNumber j = Z.of_nat i + 1 ∧ job_useCorpus j = useCorpus).
Proof.
  intros Hno.
  destruct (addFromPaths_jobs_all env ∅ now self paths useCorpus Hno)
    as (js & Hjs & Hpaths & Hnum).
  exists js. split; [|by split]. intros fs.
  destruct (addFromPaths_jobs_all env fs now self paths useCorpus Hno)
    as (js' & -> & Hpaths' & Hnum').
  f_equal. apply (jobs_determined useCorpus); [congruence | done | done].
Qed.

Lemma addFromPaths_jobs_uncached_witness :
  (∀ p, p ∈ ["a.xml"; "b.xml"] →
        consults_ctime Sample.env (new_bundle None) p = false)
  ∧ ∃ js,
      addFromPaths_jobs Sample.env ∅ 500 (new_bundle None) ["a.xml"; "b.xml"] false
      = Ok js
      ∧ job_filePath <$> js = ["/home/user/a.xml"; "/home/user/b.xml"].
Proof.
  assert (H : ∀ p, p ∈ ["a.xml"; "b.xml"] →
                consults_ctime Sample.env (new_bundle None) p = false).
  { intros p _. unfold consults_ctime, new_bundle. cbn [metadataEntries].
    rewrite dom_empty_L, bool_decide_eq_false_2 by apply not_elem_of_empty.
    reflexivity. }
  split; [exact H|].
  destruct (addFromPaths_jobs_uncached Sample.env 500 (new_bundle None)
              ["a.xml"; "b.xml"] false H) as (js & Hjs & Hp & _).
  exists js. split; [apply Hjs|]. rewrite Hp. vm_compute. reflexivity.
Defined.

(** ** More on persistence *)

Lemma filePath_name env (A B : MetadataBundle) :
  name A = name B → filePath env A = filePath env B.
Proof. unfold filePath. by intros ->. Qed.

(** X17: [delete] on an anonymous bundle leaves the disk alone; on a named
    bundle it leaves no file at the bundle's location, touches no other
    file, and a [read] right after it finds nothing and returns the bundle
    as it is. *)
Theorem delete_removes_snapshot_only (env : Env) (self : MetadataBundle)
    (fs : FileSystem) :
  (name self = None → delete_ env self fs = fs)
  ∧ (∀ p, filePath env self = Some p →
          exists_ env (delete_ env self fs) p = false
          ∧ (∀ q, q ≠ abspath env p → delete_ env self fs !! q = fs !! q)
          ∧ read env self None (delete_ env self fs) = Ok self).
Proof.
  split.
  - intros Hn. unfold delete_. by rewrite (proj2 (filePath_None env self) Hn).
  - intros p Hp.
    assert (Hgone : delete_ env self fs !! abspath env p = None).
    { unfold delete_, remove, exists_. rewrite Hp.
      destruct (fs !! abspath env p) as [f|] eqn:Hf.
      - rewrite bool_decide_eq_true_2 by eauto. apply lookup_delete_eq.
      - rewrite bool_decide_eq_false_2 by (intros [? ?]; congruence). exact Hf. }
    assert (Hex : exists_ env (delete_ env self fs) p = false).
    { unfold exists_. rewrite Hgone. apply bool_decide_eq_false_2.
      by intros [? ?]. }
    split; [exact Hex|]. split.
    + intros q Hq. unfold delete_, remove. rewrite Hp.
      destruct (exists_ env fs p); [|done]. by apply lookup_delete_ne.
    + unfold read. rewrite Hp. simpl. by rewrite Hex.
Qed.

Lemma delete_removes_snapshot_only_witness :
  filePath Sample.env Sample.core = Some Sample.core_json
  ∧ exists_ Sample.env (Sample.disk 100) Sample.core_json = true
  ∧ exists_ Sample.env (delete_ Sample.env Sample.core (Sample.disk 100))
      Sample.core_json = false
  ∧ read Sample.env Sample.core None
      (delete_ Sample.env Sample.core (Sample.disk 100)) = Ok Sample.core.
Proof.
  assert (Hp : filePath Sample.env Sample.core = Some Sample.core_json)
    by (vm_compute; reflexivity).
  split; [exact Hp|]. split; [vm_compute; reflexivity|].
  destruct (delete_removes_snapshot_only Sample.env Sample.core (Sample.disk 100))
    as [_ H].
  destruct (H _ Hp) as (H1 & _ & H2). split; [exact H1 | exact H2].
Defined.

(** ** The whole of [addFromPaths], and [rebuild] *)

Lemma write_untouched env now b arg fs :
  (filePath env b = None → write env now b arg fs = fs)
  ∧ (∀ p, filePath env b = Some p →
          write env now b arg fs !! abspath env p
          = Some {| ctime := now; data := jsonFreeze env (metadataEntries b) |}
          ∧ ∀ q, q ≠ abspath env p → write env now b arg fs !! q = fs !! q).
Proof.
  unfold write, jsonWrite. split.
  - by intros ->.
  - intros p ->. split; [apply lookup_insert_eq|].
    intros q Hq. by apply lookup_insert_ne.
Qed.

(** The loop over the job results. *)
Lemma merge_loop_spec env now (results : list JobResult) : ∀ st,
  let st' := foldl (merge_step env now) st results in
  name (merged st') = name (merged st)
  ∧ accumulatedErrors st'
    = accumulatedErrors st ++ concat (result_errors <$> results)
  ∧ (∀ k e, metadataEntries (merged st') !! k = Some e →
            metadataEntries (merged st) !! k = Some e
            ∨ (k = corpusPath e
               ∧ ∃ r, r ∈ results ∧ e ∈ result_metadataEntries r))
  ∧ (filePath env (merged st) = None → disk st' = disk st)
  ∧ (∀ p, filePath env (merged st) = Some p →
          ∀ q, q ≠ abspath env p → disk st' !! q = disk st !! q).
Proof.
  induction results as [| r results IH]; intros st; cbn [foldl].
  - cbv zeta. rewrite app_nil_r. repeat split; auto.
  - specialize (IH (merge_step env now st r)). cbv zeta in IH |- *.
    destruct IH as (Hn & He & Hk & Hd0 & Hd1).
    set (st1 := merge_step env now st r) in *.
    assert (Hn1 : name (merged st1) = name (merged st)) by reflexivity.
    assert (Hf1 : filePath env (merged st1) = filePath env (merged st))
      by (by apply filePath_name).
    split; [by rewrite Hn|]. split.
    { rewrite He. unfold st1. simpl. by rewrite <- app_assoc. }
    split; [|split].
    + intros k e H. apply Hk in H as [H | (-> & r' & Hr' & Hin)].
      * unfold st1 in H. simpl in H.
        apply store_entries_lookup in H as [H | [H ->]]; [by left|].
        right. split; [done|]. exists r. split; [by left | done].
      * right. split; [done|]. exists r'. split; [by right | done].
    + intros Hnone. rewrite Hd0 by (by rewrite Hf1). unfold st1. simpl.
      destruct (_ =? 0); [|done].
      apply (write_untouched env now _ None (disk st)).
      rewrite <- Hnone. by apply filePath_name.
    + intros p Hp q Hq. rewrite (Hd1 p) by (by rewrite ?Hf1). unfold st1. simpl.
      destruct (_ =? 0); [|done].
      eapply (write_untouched env now _ None (disk st)); [|exact Hq].
      rewrite <- Hp. by apply filePath_name.
Qed.

(** X19: when the scheduling phase succeeds, [addFromPaths] returns the
    errors of the job results in the order the results arrive; the bundle
    keeps its name, and each of its entries is either one it held before,
    under the same key, or one yielded by a job, under its canonical key;
    an anonymous bundle leaves the disk as it was, and for a named bundle
    the call ends with a snapshot of the returned entries at the bundle's
    location and changes no other file. *)
Theorem addFromPaths_outcome (env : Env) (jp : JobProcessor) (fs : FileSystem)
    (now : Z) (self : MetadataBundle) (paths : list string)
    (useCorpus useMultiprocessing : bool) (js : list MetadataCachingJob) :
  addFromPaths_jobs env fs now self paths useCorpus = Ok js →
  let results :=
    (if useMultiprocessing then process_parallel jp else process_serial jp) js in
  ∃ b fs',
    addFromPaths env jp fs now self paths useCorpus useMultiprocessing
    = Ok (concat (result_errors <$> results), b, fs')
    ∧ name b = name self
    ∧ (∀ k e, metadataEntries b !! k = Some e →
              metadataEntries self !! k = Some e
              ∨ (k = corpusPath e
                 ∧ ∃ r, r ∈ results ∧ e ∈ result_metadataEntries r))
    ∧ (filePath env self = None → fs' = fs)
    ∧ (∀ p, filePath env self = Some p →
            fs' !! abspath env p
            = Some {| ctime := now; data := jsonFreeze env (metadataEntries b) |}
            ∧ ∀ q, q ≠ abspath env p → fs' !! q = fs !! q).
Proof.
  intros Hjs results. unfold addFromPaths. rewrite Hjs. simpl. fold results.
  set (st0 := {| currentIteration := 0; accumulatedResults := [];
                 accumulatedErrors := []; merged := self; disk := fs |}).
  destruct (merge_loop_spec env now results st0) as (Hn & He & Hk & Hd0 & Hd1).
  set (st := foldl (merge_step env now) st0 results) in *.
  set (b := (validate env (disk st) (merged st)).1).
  assert (Hnb : name b = name self) by (unfold b, validate; simpl; exact Hn).
  assert (Hfb : filePath env b = filePath env self) by (by apply filePath_name).
  exists b, (write env now b None (disk st)).
  split; [by rewrite He|]. split; [exact Hnb|]. split; [|split].
  - intros k e H. apply Hk. unfold b, validate in H. simpl in H.
    rewrite foldl_delete_lookup in H. by destruct (bool_decide _).
  - intros Hnone.
    rewrite (proj1 (write_untouched env now b None (disk st))) by congruence.
    by apply Hd0.
  - intros p Hp.
    destruct (proj2 (write_untouched env now b None (disk st)) p) as [H1 H2];
      [congruence|].
    split; [exact H1|]. intros q Hq. rewrite H2 by done. by apply (Hd1 p).
Qed.

Lemma addFromPaths_outcome_witness :
  let jp := {| process_parallel := fun _ => [];
               process_serial := fun _ =>
                 [{| result_metadataEntries := [Sample.krn];
                     result_errors := ["/scores/broken.abc"];
                     result_filePath := "/scores/broken.abc";
                     result_remainingJobs := 0 |}] |} in
  ∃ js b fs',
    addFromPaths_jobs Sample.env (Sample.disk 100) 500 Sample.core
      ["/scores/broken.abc"] false = Ok js
    ∧ addFromPaths Sample.env jp (Sample.disk 100) 500 Sample.core
        ["/scores/broken.abc"] false false
      = Ok (["/scores/broken.abc"], b, fs')
    ∧ name b = Some "core".
Proof.
  intros jp.
  assert (Hjs : ∃ js, addFromPaths_jobs Sample.env (Sample.disk 100) 500 Sample.core
                        ["/scores/broken.abc"] false = Ok js)
    by (eexists; vm_compute; reflexivity).
  destruct Hjs as [js Hjs].
  destruct (addFromPaths_outcome Sample.env jp (Sample.disk 100) 500 Sample.core
              ["/scores/broken.abc"] false false js Hjs)
    as (b & fs' & Hr & Hn & _).
  exists js, b, fs'. split; [exact Hjs|]. split; [exact Hr | exact Hn].
Defined.







(** ** The per-corpus cache *)

Lemma read_and_cache_lookup env fs cache corpusName b cache' :
  read_and_cache env fs cache corpusName = Ok (b, cache') →
  cache' !! corpusName = Some (Some b).
Proof.
  unfold read_and_cache.
  destruct (read env (new_bundle (Some corpusName)) None fs) as [b0 | e]; simpl;
    [|discriminate].
  intros [= <- <-]. apply lookup_insert_eq.
Qed.

(** X21: after [fromCoreCorpus] (or [fromVirtualCorpus]) has returned a
    bundle, the cache holds it; a later call returns the same bundle without
    looking at the disk only if the bundle is not empty, and reads the disk
    again if it is empty.  [fromLocalCorpus] returns the cached bundle on
    every later call, empty or not. *)
Theorem corpus_cache_reuse (env : Env) (fs fs' : FileSystem) (cache : BundleCache) :
  (∀ b cache', fromCoreCorpus env fs cache = Ok (b, cache') →
     cache' !! "core" = Some (Some b)
     ∧ (truth b = true → fromCoreCorpus env fs' cache' = Ok (b, cache'))
     ∧ (truth b = false →
        fromCoreCorpus env fs' cache' = read_and_cache env fs' cache' "core"))
  ∧ (∀ b cache', fromVirtualCorpus env fs cache = Ok (b, cache') →
     cache' !! "virtual" = Some (Some b)
     ∧ (truth b = true → fromVirtualCorpus env fs' cache' = Ok (b, cache'))
     ∧ (truth b = false →
        fromVirtualCorpus env fs' cache' = read_and_cache env fs' cache' "virtual"))
  ∧ (∀ n b cache', fromLocalCorpus env fs cache n = Ok (b, cache') →
     fromLocalCorpus env fs' cache' n = Ok (b, cache')).
Proof.
  assert (Hgen : ∀ corpusName b cache',
    match cache !! corpusName with
    | Some (Some b0) =>
        if truth b0 then Ok (b0, cache)
        else read_and_cache env fs cache corpusName
    | _ => read_and_cache env fs cache corpusName
    end = Ok (b, cache') →
    cache' !! corpusName = Some (Some b)).
  { intros corpusName b cache' H.
    destruct (cache !! corpusName) as [[b0|]|] eqn:Hc;
      try (by apply read_and_cache_lookup in H).
    destruct (truth b0); [|by apply read_and_cache_lookup in H].
    by injection H as <- <-. }
  split; [|split].
  - intros b cache' H. apply Hgen in H. unfold fromCoreCorpus. rewrite H.
    split; [done|]. split; intros ->; reflexivity.
  - intros b cache' H. apply Hgen in H. unfold fromVirtualCorpus. rewrite H.
    split; [done|]. split; intros ->; reflexivity.
  - intros n b cache' H. unfold fromLocalCorpus in *.
    set (corpusName := match n with
                       | None => "local"
                       | Some n0 => if String.eqb n0 "local" then "local"
                                    else "local-" +:+ n0
                       end) in *.
    assert (Hc : cache' !! corpusName = Some (Some b)).
    { destruct (cache !! corpusName) as [[b0|]|] eqn:Hc;
        try (by apply read_and_cache_lookup in H).
      by injection H as <- <-. }
    by rewrite Hc.
Qed.

Lemma corpus_cache_reuse_witness :
  ∃ b cache',
    fromCoreCorpus Sample.env ∅ ∅ = Ok (b, cache')
    ∧ truth b = false
    ∧ fromCoreCorpus Sample.env (Sample.disk 100) cache'
      = read_and_cache Sample.env (Sample.disk 100) cache' "core"
    ∧ fromLocalCorpus Sample.env ∅ ∅ None
      = Ok (new_bundle (Some "local"), {[ "local" := Some (new_bundle (Some "local")) ]}).
Proof.
  assert (H : fromCoreCorpus Sample.env ∅ ∅
              = Ok (new_bundle (Some "core"),
                    {[ "core" := Some (new_bundle (Some "core")) ]}))
    by (vm_compute; reflexivity).
  eexists _, _. split; [exact H|]. split; [reflexivity|].
  destruct (corpus_cache_reuse Sample.env ∅ (Sample.disk 100) ∅) as (Hcore & _ & _).
  destruct (Hcore _ _ H) as (_ & _ & Hempty).
  split; [exact (Hempty eq_refl)|]. vm_compute. reflexivity.
Defined.

(** ** Associativity *)

Lemma intersection_entries A B r :
  intersection A (VBundle B) = Ok r →
  ∀ k, metadataEntries r !! k
       = match metadataEntries B !! k with
         | Some _ => metadataEntries A !! k
         | None => None
         end.
Proof. intros Hr k. by apply intersection_lookup. Qed.

(** X22: union and intersection are associative with the very same entries
    on both sides (so [==] holds), because each keeps the entry of its
    leftmost operand that has the key. *)
Theorem union_intersection_assoc (A B C : MetadataBundle) :
  ∃ AB BC U1 U2 IAB IBC I1 I2,
    union A (VBundle B) = Ok AB ∧ union B (VBundle C) = Ok BC
    ∧ union AB (VBundle C) = Ok U1 ∧ union A (VBundle BC) = Ok U2
    ∧ intersection A (VBundle B) = Ok IAB ∧ intersection B (VBundle C) = Ok IBC
    ∧ intersection IAB (VBundle C) = Ok I1 ∧ intersection A (VBundle IBC) = Ok I2
    ∧ U1 = U2 ∧ __eq__ U1 (VBundle U2) = true
    ∧ I1 = I2 ∧ __eq__ I1 (VBundle I2) = true.
Proof.
  destruct (apply_set_operation_Ok A B op_union) as (AB & HAB & _ & _).
  destruct (apply_set_operation_Ok B C op_union) as (BC & HBC & _ & _).
  destruct (apply_set_operation_Ok AB C op_union) as (U1 & HU1 & N1 & _).
  destruct (apply_set_operation_Ok A BC op_union) as (U2 & HU2 & N2 & _).
  destruct (apply_set_operation_Ok A B op_intersection) as (IAB & HIAB & _ & _).
  destruct (apply_set_operation_Ok B C op_intersection) as (IBC & HIBC & _ & _).
  destruct (apply_set_operation_Ok IAB C op_intersection) as (I1 & HI1 & M1 & _).
  destruct (apply_set_operation_Ok A IBC op_intersection) as (I2 & HI2 & M2 & _).
  exists AB, BC, U1, U2, IAB, IBC, I1, I2.
  repeat (split; [assumption|]).
  assert (HU : U1 = U2).
  { apply bundle_eq; [congruence|]. intros k.
    rewrite (union_entries _ _ _ HU1), (union_entries _ _ _ HU2),
            (union_entries _ _ _ HAB), (union_entries _ _ _ HBC).
    by rewrite (assoc (∪)). }
  assert (HI : I1 = I2).
  { apply bundle_eq; [congruence|]. intros k.
    rewrite (intersection_entries _ _ _ HI1 k), (intersection_entries _ _ _ HI2 k),
            (intersection_entries _ _ _ HIAB k), (intersection_entries _ _ _ HIBC k).
    by destruct (metadataEntries A !! k), (metadataEntries B !! k),
                (metadataEntries C !! k). }
  split; [exact HU|]. split; [rewrite HU; by apply entries_eq_dict_eq|].
  split; [exact HI|]. rewrite HI. by apply entries_eq_dict_eq.
Qed.
